(** * A shallow embedding of the todo-list REST API

    The development follows the layers of the repository:
    - [utils/responseHelper.js]   : the response envelope;
    - [models/User.js], [models/List.js], [models/Todo.js] : the SQL
      statements, run against an in-memory image of the three tables;
    - [controllers/*.js]          : the request handlers;
    - [middleware/authMiddleware.js] and [app.js] : the JWT gate and the
      mount points.

    Third-party packages (bcryptjs, jsonwebtoken, the MySQL server's
    implicit casts) are parameters of the development, gathered in the
    class [Packages].  Their documented contracts, where a property
    needs one, are predicates on [Packages] and hypotheses of the
    theorem that needs them. *)

From Stdlib Require Import ZArith List String Ascii Bool Lia DecimalString.
Import ListNotations.

Set Warnings "-register-all".

Open Scope string_scope.
Open Scope list_scope.
Open Scope Z_scope.

Infix "+++" := String.append (at level 60, right associativity).

(* ------------------------------------------------------------------ *)
(** ** Persisted schema *)
(* ------------------------------------------------------------------ *)

(** [users(id, name, email, password, created_at)] *)
Record UserRow := mkUser {
  u_id : Z;
  u_name : string;
  u_email : string;
  u_password : string;
  u_created_at : Z
}.

(** [lists(id, name, user_id, created_at, updated_at)] *)
Record ListRow := mkList {
  l_id : Z;
  l_name : string;
  l_user_id : Z;
  l_created_at : Z;
  l_updated_at : option Z
}.

(** [todos(id, name, list_id, completed, created_at, updated_at)] *)
Record TodoRow := mkTodo {
  t_id : Z;
  t_name : string;
  t_list_id : Z;
  t_completed : bool;
  t_created_at : Z;
  t_updated_at : option Z
}.

(** The database: the three tables in insertion order and their
    AUTO_INCREMENT counters. *)
Record Database := mkDb {
  users : list UserRow;
  lists : list ListRow;
  todos : list TodoRow;
  next_user_id : Z;
  next_list_id : Z;
  next_todo_id : Z
}.

Definition set_users (d : Database) (us : list UserRow) (n : Z) : Database :=
  mkDb us (lists d) (todos d) n (next_list_id d) (next_todo_id d).

Definition set_lists (d : Database) (ls : list ListRow) (n : Z) : Database :=
  mkDb (users d) ls (todos d) (next_user_id d) n (next_todo_id d).

Definition set_todos (d : Database) (ts : list TodoRow) (n : Z) : Database :=
  mkDb (users d) (lists d) ts (next_user_id d) (next_list_id d) n.

(* ------------------------------------------------------------------ *)
(** ** Values that cross the JavaScript boundary *)
(* ------------------------------------------------------------------ *)

(** A JavaScript [Error]: its [name] and [message]. *)
Record error := mkError { err_name : string; err_message : string }.

(** An id handed to a statement as a bind parameter: a number (the [id]
    of a token payload, an [insertId]), the text of a route parameter
    ([req.params.id] is a string when the route has [:id]) or
    [undefined]. *)
Inductive key := KNum (z : Z) | KStr (s : string) | KUndefined.

(** The payload the application signs, [{ id, email }]. *)
Record Claims := mkClaims { c_id : Z; c_email : option string }.

(** A decoded token, as [jwt.verify] returns it: the signed payload plus
    the registered claims [iat] and [exp] (seconds). *)
Record Decoded := mkDecoded {
  d_id : Z;
  d_email : option string;
  d_iat : Z;
  d_exp : Z
}.

(** JSON bodies.  [JUndefined] is a property whose value is [undefined]
    ([JSON.stringify] drops it); [JDate None] is an invalid [Date]
    (serialised as [null]); [JError] is an error object. *)
Inductive json :=
| JUndefined
| JNull
| JBool (b : bool)
| JNum (z : Z)
| JStr (s : string)
| JDate (ms : option Z)
| JError (e : error)
| JArr (items : list json)
| JObj (fields : list (string * json)).

Record Response := mkResponse { status : Z; body : json }.

(** [process.env], restricted to the two variables the code reads. *)
Record Env := mkEnv { JWT_SECRET : option string; JWT_TTL : option string }.

(** What one request sees of the outside: the process environment, the
    wall clock in milliseconds ([Date.now()], also used for [NOW()]) and
    the random salt bcrypt draws. *)
Record Ctx := mkCtx { env : Env; now : Z; salt : string }.

(** What the code does that an observer of the process could log. *)
Inductive event :=
| Sql (statement : string)
| BcryptHash
| BcryptCompare
| JwtSign
| JwtVerify
| Controller (name : string).

(* ------------------------------------------------------------------ *)
(** ** The monad of handlers: reader, state, trace and exceptions *)
(* ------------------------------------------------------------------ *)

Inductive Res (A : Type) : Type :=
| Return (a : A)
| Throw (e : error).
Arguments Return {A} a.
Arguments Throw {A} e.

Definition M (A : Type) : Type :=
  Ctx -> Database -> Res A * Database * list event.

Definition ret {A} (a : A) : M A := fun _ d => (Return a, d, []).

Definition throw {A} (e : error) : M A := fun _ d => (Throw e, d, []).

Definition bind {A B} (m : M A) (f : A -> M B) : M B :=
  fun c d =>
    match m c d with
    | (Return a, d1, t1) =>
        match f a c d1 with
        | (r, d2, t2) => (r, d2, t1 ++ t2)
        end
    | (Throw e, d1, t1) => (Throw e, d1, t1)
    end.

(** [try { m } catch (error) { h error }] *)
Definition try_catch {A} (m : M A) (h : error -> M A) : M A :=
  fun c d =>
    match m c d with
    | (Return a, d1, t1) => (Return a, d1, t1)
    | (Throw e, d1, t1) =>
        match h e c d1 with
        | (r, d2, t2) => (r, d2, t1 ++ t2)
        end
    end.

Definition ask : M Ctx := fun c d => (Return c, d, []).
Definition get : M Database := fun _ d => (Return d, d, []).
Definition put (d : Database) : M unit := fun _ _ => (Return tt, d, []).
Definition emit (e : event) : M unit := fun _ d => (Return tt, d, [e]).

Notation "x <- m ;; k" := (bind m (fun x => k))
  (at level 61, m at next level, right associativity).
Notation "m ;;; k" := (bind m (fun _ => k))
  (at level 61, right associativity).

(** Projections of a run. *)
Definition result {A} (r : Res A * Database * list event) : Res A :=
  fst (fst r).
Definition final {A} (r : Res A * Database * list event) : Database :=
  snd (fst r).
Definition trace {A} (r : Res A * Database * list event) : list event :=
  snd r.

(* ------------------------------------------------------------------ *)
(** ** JavaScript string helpers *)
(* ------------------------------------------------------------------ *)

Fixpoint drop (n : nat) (s : string) : string :=
  match n, s with
  | O, _ => s
  | S n', String _ s' => drop n' s'
  | S _, EmptyString => EmptyString
  end.

(** [s.replace(pat, rep)] with a string pattern: the first occurrence of
    [pat] is replaced, later ones are kept. *)
Fixpoint replace (pat rep s : string) : string :=
  if String.prefix pat s then rep +++ drop (String.length pat) s
  else match s with
       | EmptyString => EmptyString
       | String c s' => String c (replace pat rep s')
       end.

(** Truthiness of [string | undefined]: [undefined] and [""] are falsy. *)
Definition truthy (s : option string) : bool :=
  match s with
  | None | Some EmptyString => false
  | Some _ => true
  end.

(** ['text' + value] for a value that is a string or [undefined]. *)
Definition concat_undef (s : string) (v : option string) : string :=
  match v with
  | Some x => s +++ x
  | None => s +++ "undefined"
  end.

(** [a || b] on [string | undefined] with a string default. *)
Definition or_default (a : option string) (b : string) : string :=
  if truthy a then match a with Some x => x | None => b end else b.

Definition is_digit (c : ascii) : bool :=
  (48 <=? Z.of_N (N_of_ascii c)) && (Z.of_N (N_of_ascii c) <=? 57).

Fixpoint decimal_acc (acc : Z) (s : string) : option Z :=
  match s with
  | EmptyString => Some acc
  | String c s' =>
      if is_digit c
      then decimal_acc (10 * acc + (Z.of_N (N_of_ascii c) - 48)) s'
      else None
  end.

(** The value of a non-empty string of decimal digits. *)
Definition decimal (s : string) : option Z :=
  match s with
  | EmptyString => None
  | _ => decimal_acc 0 s
  end.

(* ------------------------------------------------------------------ *)
(** ** Requests *)
(* ------------------------------------------------------------------ *)

Inductive Method := GET | HEAD | POST | PUT | PATCH | DELETE | OPTIONS.

(** The object the JSON body parser sets as [req.body], read at the
    properties the handlers destructure; [None] is a missing property
    ([undefined]). *)
Record Body := mkBody {
  b_name : option string;
  b_email : option string;
  b_password : option string;
  b_listId : option Z;
  b_completed : option bool
}.

(** A request as the mounted routers see it: [rq_path] is the URL path
    split at ['/'], [rq_parsed] is [req.body] (the object the JSON body
    parser has set, or [undefined] when it has parsed nothing),
    [rq_params_id] is [req.params.id] (set by the router that matches
    ['/:id']) and [rq_user] is [req.user] (set by the gate). *)
Record Request := mkRequest {
  rq_method : Method;
  rq_path : list string;
  rq_authorization : option string;
  rq_parsed : option Body;
  rq_params_id : option string;
  rq_user : option Decoded
}.

(** The properties of [req.body]: those of the parsed object, none when
    [req.body] is [undefined]. *)
Definition rq_body (req : Request) : Body :=
  match rq_parsed req with
  | Some b => b
  | None => mkBody None None None None None
  end.

Definition with_user (req : Request) (u : option Decoded) : Request :=
  mkRequest (rq_method req) (rq_path req) (rq_authorization req)
            (rq_parsed req) (rq_params_id req) u.

Definition with_params_id (req : Request) (id : string) : Request :=
  mkRequest (rq_method req) (rq_path req) (rq_authorization req)
            (rq_parsed req) (Some id) (rq_user req).

(* ------------------------------------------------------------------ *)
(** ** utils/responseHelper.js *)
(* ------------------------------------------------------------------ *)

(** [successResponse(res, data = [], message = "Request completed
    successfully")] *)
Definition successResponse (data : json) (message : option string)
  : M Response :=
  let data := match data with JUndefined => JArr [] | _ => data end in
  let message :=
    match message with
    | Some m => m
    | None => "Request completed successfully"
    end in
  ret (mkResponse 200
         (JObj [("success", JBool true); ("data", data);
                ("message", JStr message)])).

(** [errorResponse(res, message = "An error occurred", status = 500,
    error = {})] *)
Definition errorResponse (message : string) (status : Z)
  (error : option error) : M Response :=
  let error :=
    match error with Some e => JError e | None => JObj [] end in
  ret (mkResponse status
         (JObj [("success", JBool false); ("message", JStr message);
                ("error", error)])).

(** Serialised rows ([SELECT *]). *)
Definition opt_date (o : option Z) : json :=
  match o with Some ms => JDate (Some ms) | None => JNull end.

Definition list_json (r : ListRow) : json :=
  JObj [("id", JNum (l_id r)); ("name", JStr (l_name r));
        ("user_id", JNum (l_user_id r));
        ("created_at", JDate (Some (l_created_at r)));
        ("updated_at", opt_date (l_updated_at r))].

Definition todo_json (r : TodoRow) : json :=
  JObj [("id", JNum (t_id r)); ("name", JStr (t_name r));
        ("list_id", JNum (t_list_id r));
        ("completed", JNum (if t_completed r then 1 else 0));
        ("created_at", JDate (Some (t_created_at r)));
        ("updated_at", opt_date (t_updated_at r))].

Definition opt_str (o : option string) : json :=
  match o with Some s => JStr s | None => JUndefined end.
Definition opt_num (o : option Z) : json :=
  match o with Some z => JNum z | None => JUndefined end.
Definition opt_bool (o : option bool) : json :=
  match o with Some b => JBool b | None => JUndefined end.

(** The errors the packages raise on [undefined] arguments. *)
Definition bind_undefined : error :=
  mkError "TypeError"
    "Bind parameters must not contain undefined. To pass SQL NULL specify JS null".
Definition bcrypt_illegal (types : string) : error :=
  mkError "Error" ("Illegal arguments: " +++ types).
Definition dup_entry : error :=
  mkError "Error" "ER_DUP_ENTRY".
Definition undefined_property (p : string) : error :=
  mkError "TypeError"
    ("Cannot read properties of undefined (reading '" +++ p +++ "')").
Definition undefined_body (p : string) : error :=
  mkError "TypeError"
    ("Cannot destructure property '" +++ p
     +++ "' of 'req.body' as it is undefined.").

(** [const { p, ... } = req.body]: destructuring [undefined] throws. *)
Definition destructure (p : string) (req : Request) : M Body :=
  match rq_parsed req with
  | Some b => ret b
  | None => throw (undefined_body p)
  end.

(** [db.execute] refuses a bind parameter that is [undefined]. *)
Definition bind_param {A} (v : option A) : M A :=
  match v with
  | Some a => ret a
  | None => throw bind_undefined
  end.

Definition bind_key (k : key) : M key :=
  match k with
  | KUndefined => throw bind_undefined
  | _ => ret k
  end.

Definition count {A} (f : A -> bool) (l : list A) : Z :=
  Z.of_nat (List.length (filter f l)).

(* ================================================================== *)
(** * The application, over its third-party packages *)
(* ================================================================== *)

(** What the sources rely on and do not contain. *)
Class Packages := {
  (** The number MySQL compares an integer column with when the bind
      parameter is text (its implicit string-to-number cast); [None]
      when that number is no integer. *)
  mysql_number : string -> option Z;
  (** bcryptjs: the digest of a password under a salt (cost 10), and the
      check of a password against a digest. *)
  bcrypt_digest : string -> string -> string;
  bcrypt_check : string -> string -> bool;
  (** jsonwebtoken: [jwt.sign(payload, secret, { expiresIn })] and
      [jwt.verify(token, secret)], at a given clock (ms).  Both either
      return or throw. *)
  jwt_sign : Claims -> string -> option string -> Z -> error + string;
  jwt_verify : string -> option string -> Z -> error + Decoded;
  (** The time value of [Date.now() + ttl * 1000] for a [ttl] that is
      not a plain string of decimal digits ([None] is [NaN]). *)
  js_expiry_other : Z -> string -> option Z;
  (** [routes/todoRoutes.js], mounted by [app.js]: the router either
      answers or passes the request on ([None]). *)
  todoRoutes : Request -> list string -> M (option Response)
}.

Section App.

Context {P : Packages}.

(** Does the integer column [col] equal the bind parameter [k]? *)
Definition key_eq (col : Z) (k : key) : bool :=
  match k with
  | KNum z => col =? z
  | KStr s =>
      match mysql_number s with
      | Some z => col =? z
      | None => false
      end
  | KUndefined => false
  end.

(** [await bcrypt.hash(password, 10)] *)
Definition bcrypt_hash (password : option string) : M string :=
  match password with
  | None => throw (bcrypt_illegal "undefined, number")
  | Some p =>
      c <- ask ;;
      emit BcryptHash ;;;
      ret (bcrypt_digest (salt c) p)
  end.

(** [await bcrypt.compare(password, hash)] *)
Definition bcrypt_compare (password : option string) (hash : string)
  : M bool :=
  match password with
  | None => throw (bcrypt_illegal "undefined, string")
  | Some p =>
      emit BcryptCompare ;;;
      ret (bcrypt_check p hash)
  end.

(** [jwt.sign(payload, secret, { expiresIn: ttl })] *)
Definition sign (payload : Claims) (secret : string) (ttl : option string)
  : M string :=
  c <- ask ;;
  emit JwtSign ;;;
  match jwt_sign payload secret ttl (now c) with
  | inr token => ret token
  | inl e => throw e
  end.

(** [jwt.verify(token, secret)] *)
Definition verify (token : string) (secret : option string) : M Decoded :=
  c <- ask ;;
  emit JwtVerify ;;;
  match jwt_verify token secret (now c) with
  | inr decoded => ret decoded
  | inl e => throw e
  end.

(* ------------------------------------------------------------------ *)
(** ** models/User.js *)
(* ------------------------------------------------------------------ *)

Definition email_is (email : string) (r : UserRow) : bool :=
  String.eqb (u_email r) email.

(** Modelled from the spec: the table definitions are not part of the
    sources; the spec's schema is [users(id, name, email UNIQUE, ...)],
    so an INSERT of an email that is already stored is refused. *)
Definition users_email_unique (email : string) : M unit :=
  d <- get ;;
  if existsb (email_is email) (users d) then throw dup_entry else ret tt.

(** [User.create(name, email, password)] *)
Definition User_create (name email password : option string) : M Z :=
  let sql :=
    "INSERT INTO users(name, email, password, created_at) VALUES(?, ?, ?, NOW())" in
  hashedPassword <- bcrypt_hash password ;;
  name <- bind_param name ;;
  email <- bind_param email ;;
  emit (Sql sql) ;;;
  users_email_unique email ;;;
  c <- ask ;;
  d <- get ;;
  let insertId := next_user_id d in
  put (set_users d
         (users d ++ [mkUser insertId name email hashedPassword (now c)])
         (insertId + 1)) ;;;
  ret insertId.

(** [User.findByEmail(email)]: [rows[0]], or [undefined]. *)
Definition User_findByEmail (email : option string) : M (option UserRow) :=
  email <- bind_param email ;;
  emit (Sql "SELECT * FROM users WHERE email = ?") ;;;
  d <- get ;;
  let rows := filter (email_is email) (users d) in
  ret (hd_error rows).

(* ------------------------------------------------------------------ *)
(** ** models/List.js *)
(* ------------------------------------------------------------------ *)

(** [WHERE id=? AND user_id=?] *)
Definition list_where (id : key) (userId : Z) (r : ListRow) : bool :=
  key_eq (l_id r) id && (l_user_id r =? userId).

(** [WHERE user_id = ?] *)
Definition list_owned (userId : Z) (r : ListRow) : bool :=
  l_user_id r =? userId.

(** [List.create(name, userId)] *)
Definition List_create (name : option string) (userId : Z) : M Z :=
  let sql :=
    "INSERT INTO lists (name, user_id, created_at) VALUES (?, ?, NOW())" in
  name <- bind_param name ;;
  emit (Sql sql) ;;;
  c <- ask ;;
  d <- get ;;
  let insertId := next_list_id d in
  put (set_lists d
         (lists d ++ [mkList insertId name userId (now c) None])
         (insertId + 1)) ;;;
  ret insertId.

(** [List.remove(id, userId)] *)
Definition List_remove (id : key) (userId : Z) : M Z :=
  let sql := "DELETE FROM lists WHERE id=? AND user_id=?" in
  id <- bind_key id ;;
  emit (Sql sql) ;;;
  d <- get ;;
  let affectedRows := count (list_where id userId) (lists d) in
  put (set_lists d
         (filter (fun r => negb (list_where id userId r)) (lists d))
         (next_list_id d)) ;;;
  ret affectedRows.

(** [List.update({name, id, userId})] *)
Definition List_update (name : option string) (id : key) (userId : Z)
  : M Z :=
  let sql :=
    "UPDATE lists SET name=?, updated_at=NOW() WHERE id=? AND user_id=?" in
  name <- bind_param name ;;
  id <- bind_key id ;;
  emit (Sql sql) ;;;
  c <- ask ;;
  d <- get ;;
  let affectedRows := count (list_where id userId) (lists d) in
  put (set_lists d
         (map (fun r =>
                 if list_where id userId r
                 then mkList (l_id r) name (l_user_id r) (l_created_at r)
                             (Some (now c))
                 else r)
              (lists d))
         (next_list_id d)) ;;;
  ret affectedRows.

(** [List.findAllByUserId(userId)] *)
Definition List_findAllByUserId (userId : Z) : M (list ListRow) :=
  let sql := "SELECT * FROM lists WHERE user_id = ?" in
  emit (Sql sql) ;;;
  d <- get ;;
  let rows := filter (list_owned userId) (lists d) in
  ret rows.

(** [List.getListById(id, userId)] *)
Definition List_getListById (id : key) (userId : Z) : M (list ListRow) :=
  let sql := "SELECT * FROM lists WHERE id=? AND user_id = ?" in
  emit (Sql sql) ;;;
  d <- get ;;
  let rows := filter (list_where id userId) (lists d) in
  ret rows.

(* ------------------------------------------------------------------ *)
(** ** models/Todo.js *)
(* ------------------------------------------------------------------ *)

(** [WHERE id = ?] *)
Definition todo_where (id : key) (r : TodoRow) : bool :=
  key_eq (t_id r) id.

(** [WHERE list_id = ?]; [db.query] turns [undefined] into [NULL],
    which equals nothing. *)
Definition todo_in_list (listId : option Z) (r : TodoRow) : bool :=
  match listId with
  | Some l => t_list_id r =? l
  | None => false
  end.

(** [Todo.create({name, listId, completed = false})] *)
Definition Todo_create (name : option string) (listId : option Z)
  (completed : option bool) : M Z :=
  let completed := match completed with Some b => b | None => false end in
  let sql :=
    "INSERT INTO todos (name, list_id, completed, created_at) VALUES (?, ?, ?, NOW())" in
  name <- bind_param name ;;
  listId <- bind_param listId ;;
  emit (Sql sql) ;;;
  c <- ask ;;
  d <- get ;;
  let insertId := next_todo_id d in
  put (set_todos d
         (todos d ++ [mkTodo insertId name listId completed (now c) None])
         (insertId + 1)) ;;;
  ret insertId.

(** [Todo.remove(id)] *)
Definition Todo_remove (id : key) : M Z :=
  let sql := "DELETE FROM todos WHERE id = ?" in
  id <- bind_key id ;;
  emit (Sql sql) ;;;
  d <- get ;;
  let affectedRows := count (todo_where id) (todos d) in
  put (set_todos d
         (filter (fun r => negb (todo_where id r)) (todos d))
         (next_todo_id d)) ;;;
  ret affectedRows.

(** [Todo.update({name, completed, id, listId})] (the statement is
    written here on one line) *)
Definition Todo_update (name : option string) (completed : option bool)
  (id : key) (listId : option Z) : M Z :=
  let sql :=
    "UPDATE todos SET name = ?, completed = ?, list_id = ?, updated_at = NOW() WHERE id = ?" in
  name <- bind_param name ;;
  completed <- bind_param completed ;;
  listId <- bind_param listId ;;
  id <- bind_key id ;;
  emit (Sql sql) ;;;
  c <- ask ;;
  d <- get ;;
  let affectedRows := count (todo_where id) (todos d) in
  put (set_todos d
         (map (fun r =>
                 if todo_where id r
                 then mkTodo (t_id r) name listId completed (t_created_at r)
                             (Some (now c))
                 else r)
              (todos d))
         (next_todo_id d)) ;;;
  ret affectedRows.

(** [Todo.findAllByListId(listId)] *)
Definition Todo_findAllByListId (listId : option Z) : M (list TodoRow) :=
  let sql := "SELECT * FROM todos WHERE list_id = ?" in
  emit (Sql sql) ;;;
  d <- get ;;
  let rows := filter (todo_in_list listId) (todos d) in
  ret rows.

(** [Todo.getTodoById(id)] *)
Definition Todo_getTodoById (id : key) : M (list TodoRow) :=
  let sql := "SELECT * FROM todos WHERE id = ?" in
  emit (Sql sql) ;;;
  d <- get ;;
  let rows := filter (todo_where id) (todos d) in
  ret rows.

(* ------------------------------------------------------------------ *)
(** ** controllers/authController.js *)
(* ------------------------------------------------------------------ *)

(** The development-only secret both handlers fall back to. *)
Definition fallback_secret : string := "dsfsdfdsfsfdsf4332432432432432432".

(** The time value of [Date.now() + ttl * 1000], for a clock that is a
    time value (a non-negative integer below 2^53): [undefined * 1000]
    is [NaN]; a string of decimal digits denotes its value, exactly up
    to 2^53, and sums beyond that are out of the range [new_Date]
    accepts whatever their rounding. *)
Definition expiry_ms (now : Z) (ttl : option string) : option Z :=
  match ttl with
  | None => None
  | Some s =>
      match decimal s with
      | Some n =>
          if n <=? 2 ^ 53 then Some (now + n * 1000)
          else js_expiry_other now s
      | None => js_expiry_other now s
      end
  end.

(** [new Date(t)]: a time value beyond 8.64e15 ms, or [NaN], gives an
    invalid date. *)
Definition new_Date (t : option Z) : option Z :=
  match t with
  | Some ms => if Z.abs ms <=? 8640000000000000 then Some ms else None
  | None => None
  end.

(** [{ token, expiresAt: expiryDate }] *)
Definition session (token : string) (expiryDate : option Z) : json :=
  JObj [("token", JStr token); ("expiresAt", JDate expiryDate)].

Definition register (req : Request) : M Response :=
  emit (Controller "register") ;;;
  try_catch
    (body <- destructure "name" req ;;
     let name := b_name body in
     let email := b_email body in
     let password := b_password body in
     existingUser <- User_findByEmail email ;;
     match existingUser with
     | Some _ => errorResponse "Email is already registered" 409 None
     | None =>
         userId <- User_create name email password ;;
         c <- ask ;;
         let secret := or_default (JWT_SECRET (env c)) fallback_secret in
         let ttl := JWT_TTL (env c) in
         token <- sign (mkClaims userId email) secret ttl ;;
         let expiryDate := new_Date (expiry_ms (now c) ttl) in
         successResponse (session token expiryDate) None
     end)
    (fun error => errorResponse "Error registering user" 500 (Some error)).

Definition login (req : Request) : M Response :=
  emit (Controller "login") ;;;
  body <- destructure "email" req ;;
  let email := b_email body in
  let password := b_password body in
  try_catch
    (user <- User_findByEmail email ;;
     match user with
     | None => errorResponse "Invalid email or password" 401 None
     | Some user =>
         isPasswordValid <- bcrypt_compare password (u_password user) ;;
         if negb isPasswordValid
         then errorResponse "Invalid email or password" 401 None
         else
           c <- ask ;;
           let secret := or_default (JWT_SECRET (env c)) fallback_secret in
           let ttl := JWT_TTL (env c) in
           token <- sign (mkClaims (u_id user) (Some (u_email user)))
                         secret ttl ;;
           let expiryDate := new_Date (expiry_ms (now c) ttl) in
           successResponse (session token expiryDate) None
     end)
    (fun error => errorResponse "Error logging in user" 500 (Some error)).

(* ------------------------------------------------------------------ *)
(** ** controllers/listController.js *)
(* ------------------------------------------------------------------ *)

(** [req.user.id]; reading it throws when the gate has not set
    [req.user]. *)
Definition user_id (req : Request) : M Z :=
  match rq_user req with
  | Some u => ret (d_id u)
  | None => throw (undefined_property "id")
  end.

(** [req.params.id] as a bind parameter. *)
Definition params_id (req : Request) : key :=
  match rq_params_id req with
  | Some s => KStr s
  | None => KUndefined
  end.

Definition getUserLists (req : Request) : M Response :=
  emit (Controller "getUserLists") ;;;
  userId <- user_id req ;;
  try_catch
    (lists <- List_findAllByUserId userId ;;
     successResponse (JArr (map list_json lists))
                     (Some "Lists fetched successfully"))
    (fun error => errorResponse "Error fetching lists" 500 (Some error)).

Definition getListById (req : Request) : M Response :=
  emit (Controller "getListById") ;;;
  userId <- user_id req ;;
  let id := params_id req in
  try_catch
    (list <- List_getListById id userId ;;
     match list with
     | [] => errorResponse "List not found" 404 None
     | first :: _ =>
         successResponse (list_json first) (Some "List fetched successfully")
     end)
    (fun error => errorResponse "Error fetching list" 500 (Some error)).

Definition createList (req : Request) : M Response :=
  emit (Controller "createList") ;;;
  body <- destructure "name" req ;;
  let name := b_name body in
  userId <- user_id req ;;
  try_catch
    (listId <- List_create name userId ;;
     successResponse (JObj [("id", JNum listId); ("name", opt_str name)])
                     (Some "List created successfully"))
    (fun error => errorResponse "Error creating list" 500 (Some error)).

Definition updateList (req : Request) : M Response :=
  emit (Controller "updateList") ;;;
  body <- destructure "name" req ;;
  let name := b_name body in
  let id := params_id req in
  userId <- user_id req ;;
  try_catch
    (affectedRows <- List_update name id userId ;;
     if negb (affectedRows =? 0)
     then successResponse
            (JObj [("id", opt_str (rq_params_id req)); ("name", opt_str name)])
            (Some "List updated successfully")
     else errorResponse "List not found or update failed" 404 None)
    (fun error => errorResponse "Error updating list" 500 (Some error)).

Definition deleteList (req : Request) : M Response :=
  emit (Controller "deleteList") ;;;
  let id := params_id req in
  userId <- user_id req ;;
  try_catch
    (affectedRows <- List_remove id userId ;;
     if negb (affectedRows =? 0)
     then successResponse JNull (Some "List deleted successfully")
     else errorResponse "List not found or deletion failed" 404 None)
    (fun error => errorResponse "Error deleting list" 500 (Some error)).

(* ------------------------------------------------------------------ *)
(** ** controllers/todoController.js *)
(* ------------------------------------------------------------------ *)

Definition getTodos (req : Request) : M Response :=
  emit (Controller "getTodos") ;;;
  body <- destructure "listId" req ;;
  let listId := b_listId body in
  try_catch
    (todos <- Todo_findAllByListId listId ;;
     successResponse (JArr (map todo_json todos))
                     (Some "Todos fetched successfully"))
    (fun error => errorResponse "Error fetching todos" 500 (Some error)).

Definition getTodoById (req : Request) : M Response :=
  emit (Controller "getTodoById") ;;;
  let id := params_id req in
  try_catch
    (todo <- Todo_getTodoById id ;;
     match todo with
     | [] => errorResponse "Todo not found" 404 None
     | first :: _ =>
         successResponse (todo_json first) (Some "Todo fetched successfully")
     end)
    (fun error => errorResponse "Error fetching todo" 500 (Some error)).

Definition createTodo (req : Request) : M Response :=
  emit (Controller "createTodo") ;;;
  body <- destructure "name" req ;;
  let name := b_name body in
  let listId := b_listId body in
  let completed :=
    match b_completed body with Some b => b | None => false end in
  try_catch
    (todoId <- Todo_create name listId (Some completed) ;;
     successResponse
       (JObj [("id", JNum todoId); ("name", opt_str name);
              ("listId", opt_num listId); ("completed", JBool completed)])
       (Some "Todo created successfully"))
    (fun error => errorResponse "Error creating todo" 500 (Some error)).

Definition updateTodo (req : Request) : M Response :=
  emit (Controller "updateTodo") ;;;
  body <- destructure "name" req ;;
  let name := b_name body in
  let completed := b_completed body in
  let listId := b_listId body in
  let id := params_id req in
  try_catch
    (affectedRows <- Todo_update name completed id listId ;;
     if negb (affectedRows =? 0)
     then successResponse
            (JObj [("id", opt_str (rq_params_id req)); ("name", opt_str name);
                   ("completed", opt_bool completed);
                   ("listId", opt_num listId)])
            (Some "Todo updated successfully")
     else errorResponse "Todo not found or update failed" 404 None)
    (fun error => errorResponse "Error updating todo" 500 (Some error)).

Definition deleteTodo (req : Request) : M Response :=
  emit (Controller "deleteTodo") ;;;
  let id := params_id req in
  try_catch
    (affectedRows <- Todo_remove id ;;
     if negb (affectedRows =? 0)
     then successResponse JNull (Some "Todo deleted successfully")
     else errorResponse "Todo not found or deletion failed" 404 None)
    (fun error => errorResponse "Error deleting todo" 500 (Some error)).

(* ------------------------------------------------------------------ *)
(** ** middleware/authMiddleware.js *)
(* ------------------------------------------------------------------ *)

(** [req.header('Authorization')?.replace('Bearer ', '')] *)
Definition bearer (req : Request) : option string :=
  option_map (replace "Bearer " "") (rq_authorization req).

(** The gate.  [next] is the rest of the chain; Express runs it in its
    own [try], so an exception downstream never reaches the gate's
    [catch], which therefore covers [jwt.verify] alone. *)
Definition authMiddleware (req : Request) (next : Request -> M Response)
  : M Response :=
  let token := bearer req in
  if negb (truthy token)
  then errorResponse "Unauthorized" 401 None
  else
    c <- ask ;;
    let token := match token with Some t => t | None => "" end in
    verified <-
      try_catch
        (tokenDecoded <- verify token (JWT_SECRET (env c)) ;;
         ret (inr tokenDecoded))
        (fun error => ret (inl error)) ;;
    match verified with
    | inr tokenDecoded => next (with_user req (Some tokenDecoded))
    | inl error =>
        errorResponse (concat_undef "Invalid token, TTL:" (JWT_TTL (env c)))
                      401 (Some error)
    end.

(* ------------------------------------------------------------------ *)
(** ** routes/listRoutes.js, routes/authRoutes.js *)
(* ------------------------------------------------------------------ *)

(** A router answers, or passes the request on ([None]).  A HEAD request
    is served by the GET route. *)
Definition answer (m : M Response) : M (option Response) :=
  r <- m ;; ret (Some r).

Definition listRoutes (req : Request) (rest : list string)
  : M (option Response) :=
  match rq_method req, rest with
  | (GET | HEAD), [] => answer (getUserLists req)
  | (GET | HEAD), [id] => answer (getListById (with_params_id req id))
  | POST, [] => answer (createList req)
  | PATCH, [id] => answer (updateList (with_params_id req id))
  | PUT, [id] => answer (updateList (with_params_id req id))
  | DELETE, [id] => answer (deleteList (with_params_id req id))
  | _, _ => ret None
  end.

Definition authRoutes (req : Request) (rest : list string)
  : M (option Response) :=
  match rq_method req, rest with
  | POST, [segment] =>
      if String.eqb segment "login" then answer (login req)
      else if String.eqb segment "register" then answer (register req)
      else ret None
  | _, _ => ret None
  end.

(* ------------------------------------------------------------------ *)
(** ** app.js *)
(* ------------------------------------------------------------------ *)

(** [app.use(prefix, ...)]: the segments of the path below the mount
    point, when the path is under it. *)
Fixpoint mount (prefix path : list string) : option (list string) :=
  match prefix, path with
  | [], rest => Some rest
  | p :: prefix', s :: path' =>
      if String.eqb p s then mount prefix' path' else None
  | _ :: _, [] => None
  end.

(** No layer answered: Express's final handler replies 404 (an HTML
    page, no JSON envelope). *)
Definition notFound : M Response := ret (mkResponse 404 JUndefined).

Definition finish (r : option Response) : M Response :=
  match r with
  | Some response => ret response
  | None => notFound
  end.

(** The three mounts of [app.js], in order, for a request that the body
    parser and the CORS layer have passed on.  The prefixes are
    disjoint, so a router that passes falls through to the final
    handler. *)
Definition app (req : Request) : M Response :=
  match mount ["api"; "lists"] (rq_path req) with
  | Some rest =>
      authMiddleware req (fun req => r <- listRoutes req rest ;; finish r)
  | None =>
  match mount ["api"; "todos"] (rq_path req) with
  | Some rest =>
      authMiddleware req (fun req => r <- todoRoutes req rest ;; finish r)
  | None =>
  match mount ["api"; "auth"] (rq_path req) with
  | Some rest => r <- authRoutes req rest ;; finish r
  | None => notFound
  end end end.

(** A protected resource: a path under one of the two gated mounts. *)
Definition protected (path : list string) : bool :=
  match mount ["api"; "lists"] path, mount ["api"; "todos"] path with
  | None, None => false
  | _, _ => true
  end.

End App.

(* ================================================================== *)
(** * Test doubles for the packages *)
(* ================================================================== *)

(** Small executable stand-ins, used to run the application on concrete
    requests.  Tokens are [id.iat.exp.mac] in decimal; as jsonwebtoken
    does, a numeric string given as [expiresIn] counts milliseconds. *)
Module Stub.

Definition show (z : Z) : string :=
  NilZero.string_of_uint (N.to_uint (Z.to_N z)).

Fixpoint checksum (s : string) : Z :=
  match s with
  | EmptyString => 7
  | String c s' => (Z.of_N (N_of_ascii c) + 31 * checksum s') mod 1000003
  end.

Definition mac (secret : string) (id iat exp : Z) : Z :=
  (checksum secret + 3 * id + 5 * iat + 11 * exp) mod 1000003.

Fixpoint split_dot (s : string) : list string :=
  match s with
  | EmptyString => [EmptyString]
  | String c s' =>
      if Ascii.eqb c "."%char then EmptyString :: split_dot s'
      else match split_dot s' with
           | h :: t => String c h :: t
           | [] => [String c EmptyString]
           end
  end.

Definition sign (payload : Claims) (secret : string) (ttl : option string)
  (now : Z) : error + string :=
  match ttl with
  | Some s =>
      match decimal s with
      | Some ms =>
          let iat := now / 1000 in
          let exp := iat + ms / 1000 in
          inr (show (c_id payload) +++ "." +++ show iat +++ "." +++ show exp
               +++ "." +++ show (mac secret (c_id payload) iat exp))
      | None => inl (mkError "Error" "expiresIn should be a number of seconds or string representing a timespan")
      end
  | None => inl (mkError "Error" "expiresIn should be a number of seconds or string representing a timespan")
  end.

Definition verify (token : string) (secret : option string) (now : Z)
  : error + Decoded :=
  if negb (truthy secret)
  then inl (mkError "JsonWebTokenError" "secret or public key must be provided")
  else
    let secret := match secret with Some s => s | None => "" end in
    match map decimal (split_dot token) with
    | [Some id; Some iat; Some exp; Some sig] =>
        if negb (sig =? mac secret id iat exp)
        then inl (mkError "JsonWebTokenError" "invalid signature")
        else if exp <=? now / 1000
        then inl (mkError "TokenExpiredError" "jwt expired")
        else inr (mkDecoded id None iat exp)
    | _ => inl (mkError "JsonWebTokenError" "jwt malformed")
    end.

Definition digest (salt password : string) : string :=
  "$2b$10$" +++ salt +++ password.

(** Salts are 22 characters, after the 7 of the prefix. *)
Definition check (password hash : string) : bool :=
  String.eqb (drop 29 hash) password.

Definition number (s : string) : option Z :=
  match decimal s with
  | Some n => Some n
  | None => Some 0
  end.

Definition libraries : Packages := {|
  mysql_number := number;
  bcrypt_digest := digest;
  bcrypt_check := check;
  jwt_sign := sign;
  jwt_verify := verify;
  js_expiry_other := fun _ _ => None;
  todoRoutes := fun _ _ => ret None
|}.

(** Modelled from the spec: [routes/todoRoutes.js] is not part of the
    sources; [app.js] documents its table as POST /list -> getTodos,
    GET /:id -> getTodoById, POST / -> createTodo, PUT /:id ->
    updateTodo, DELETE /:id -> deleteTodo. *)
Definition routes (req : Request) (rest : list string)
  : M (option Response) :=
  match rq_method req, rest with
  | POST, [] => answer (createTodo req)
  | POST, [segment] =>
      if String.eqb segment "list" then answer (getTodos req)
      else ret None
  | (GET | HEAD), [id] => answer (@getTodoById libraries (with_params_id req id))
  | PUT, [id] => answer (@updateTodo libraries (with_params_id req id))
  | DELETE, [id] => answer (@deleteTodo libraries (with_params_id req id))
  | _, _ => ret None
  end.

Definition packages : Packages := {|
  mysql_number := number;
  bcrypt_digest := digest;
  bcrypt_check := check;
  jwt_sign := sign;
  jwt_verify := verify;
  js_expiry_other := fun _ _ => None;
  todoRoutes := routes
|}.

(** A process environment, a clock, an empty database and two
    requests. *)
Definition dev : Env := mkEnv (Some "s3cret") (Some "3600000").
Definition unset : Env := mkEnv None (Some "3600000").
Definition no_ttl : Env := mkEnv (Some "s3cret") None.
Definition at_noon (e : Env) : Ctx :=
  mkCtx e 1700000000000 "abcdefghijklmnopqrstuv".
Definition empty : Database := mkDb [] [] [] 1 1 1.

Definition no_body : Body := mkBody None None None None None.
Definition credentials (name email password : string) : Body :=
  mkBody (Some name) (Some email) (Some password) None None.

Definition request (m : Method) (path : list string)
  (authorization : option string) (b : Body) : Request :=
  mkRequest m path authorization (Some b) None None.

Definition mario : Request :=
  request POST ["api"; "auth"; "register"] None
          (credentials "Mario" "mario@test.it" "pw123").

(** Two logins that fail: nobody has the first email, and the second
    password is not Mario's. *)
Definition stranger : Request :=
  request POST ["api"; "auth"; "login"] None
          (mkBody None (Some "nobody@test.it") (Some "pw123") None None).
Definition mistyped : Request :=
  request POST ["api"; "auth"; "login"] None
          (mkBody None (Some "mario@test.it") (Some "wrong") None None).

(** A login with Mario's email and no password field. *)
Definition no_password : Request :=
  request POST ["api"; "auth"; "login"] None
          (mkBody None (Some "mario@test.it") None None None).

(** Requests for the lists of the caller. *)
Definition my_lists (authorization : option string) : Request :=
  request GET ["api"; "lists"] authorization no_body.

Definition mario_row : UserRow :=
  mkUser 1 "Mario" "mario@test.it" "$2b$10$abcdefghijklmnopqrstuvpw123"
         1700000000000.

(** The database once Mario has registered. *)
Definition registered : Database := mkDb [mario_row] [] [] 2 1 1.

(** The token that registration hands to Mario under [dev]. *)
Definition mario_token : string := "1.1700000000.1700003600.205026".

(** The token that registration hands to Mario under [unset]. *)
Definition fallback_token : string := "1.1700000000.1700003600.687928".

(** Two users, one list each, and a todo in the first list. *)
Definition groceries : ListRow := mkList 1 "Groceries" 1 1700000000000 None.
Definition work : ListRow := mkList 2 "Work" 2 1700000000000 None.
Definition milk : TodoRow := mkTodo 1 "Milk" 1 false 1700000000000 None.

Definition two_tenants : Database :=
  mkDb [mario_row;
        mkUser 2 "Luigi" "luigi@test.it"
               "$2b$10$abcdefghijklmnopqrstuvpw456" 1700000000000]
       [groceries; work] [milk] 3 3 2.

(** What [mario_token] decodes to, and the same for Luigi. *)
Definition mario_decoded : Decoded := mkDecoded 1 None 1700000000 1700003600.
Definition luigi_decoded : Decoded := mkDecoded 2 None 1700000000 1700003600.

(** A request on one list, as the router hands it to a handler once
    the gate has set [req.user]. *)
Definition on_list (m : Method) (id : string) (user : Decoded)
  (name : option string) : Request :=
  mkRequest m ["api"; "lists"; id] None
            (Some (mkBody name None None None None)) (Some id) (Some user).

(** Mario logs in. *)
Definition mario_login : Request :=
  request POST ["api"; "auth"; "login"] None
          (mkBody None (Some "mario@test.it") (Some "pw123") None None).

(** A new list called Groceries. *)
Definition new_list (authorization : option string) : Request :=
  request POST ["api"; "lists"] authorization
          (mkBody (Some "Groceries") None None None None).

(** A request whose body no parser has read: [req.body] is
    [undefined]. *)
Definition bodyless (m : Method) (path : list string) : Request :=
  mkRequest m path None None None None.

(** DELETE /api/todos/:id, as the router hands it to the handler. *)
Definition delete_todo (id : string) : Request :=
  mkRequest DELETE ["api"; "todos"; id] None (Some no_body) (Some id) None.

End Stub.

(* ================================================================== *)
(** * Vocabulary of the properties *)
(* ================================================================== *)

(** The rows of the lists table that belong to someone else than [u]. *)
Definition others (u : Z) (ls : list ListRow) : list ListRow :=
  filter (fun r => negb (l_user_id r =? u)) ls.

(** The AUTO_INCREMENT invariant of the lists table: ids are pairwise
    distinct and below the counter. *)
Definition lists_wf (d : Database) : Prop :=
  NoDup (map l_id (lists d)) /\
  Forall (fun r => l_id r < next_list_id d) (lists d).

(** A handler is blind to ownership when neither the caller's identity
    ([req.user]) nor the lists table (which holds who owns which list)
    has any influence on its response, on what it executes or on the
    todos it leaves behind, and it leaves the lists table alone. *)
Definition owner_blind (h : Request -> M Response) : Prop :=
  forall (c : Ctx) (req : Request) (u1 u2 : option Decoded) (d : Database)
         (ls1 ls2 : list ListRow) (n1 n2 : Z),
    let r1 := h (with_user req u1) c (set_lists d ls1 n1) in
    let r2 := h (with_user req u2) c (set_lists d ls2 n2) in
    result r1 = result r2 /\
    trace r1 = trace r2 /\
    todos (final r1) = todos (final r2) /\
    lists (final r1) = ls1 /\ lists (final r2) = ls2.

(** The same request with another [Authorization] header. *)
Definition with_authorization (req : Request) (h : option string) : Request :=
  mkRequest (rq_method req) (rq_path req) h (rq_parsed req)
            (rq_params_id req) (rq_user req).

(** The two envelopes, as values. *)
Definition envelope (data : json) : Response :=
  mkResponse 200
    (JObj [("success", JBool true); ("data", data);
           ("message", JStr "Request completed successfully")]).

Definition failure (status : Z) (message : string) (error : json)
  : Response :=
  mkResponse status
    (JObj [("success", JBool false); ("message", JStr message);
           ("error", error)]).

Definition unauthorized : Response := failure 401 "Unauthorized" (JObj []).

(** A run that first logs [t] and then goes on as [r]. *)
Definition after {A} (t : list event) (r : Res A * Database * list event)
  : Res A * Database * list event :=
  (result r, final r, t ++ trace r).

(** The characters of a compact JWS serialisation: the base64url
    alphabet and the dot. *)
Definition url_safe (c : ascii) : bool :=
  let n := Z.of_N (N_of_ascii c) in
  ((48 <=? n) && (n <=? 57)) || ((65 <=? n) && (n <=? 90)) ||
  ((97 <=? n) && (n <=? 122)) || (n =? 45) || (n =? 95) || (n =? 46).

Fixpoint string_forall (f : ascii -> bool) (s : string) : bool :=
  match s with
  | EmptyString => true
  | String c s' => f c && string_forall f s'
  end.

Definition compact (t : string) : bool :=
  negb (String.eqb t "") && string_forall url_safe t.

(** The two statements of [models/User.js]. *)
Definition select_user : string := "SELECT * FROM users WHERE email = ?".
Definition insert_user : string :=
  "INSERT INTO users(name, email, password, created_at) VALUES(?, ?, ?, NOW())".

(** The secret the handlers sign with. *)
Definition signing_secret (c : Ctx) : string :=
  or_default (JWT_SECRET (env c)) fallback_secret.

(** The value of [expiresAt] in a successful answer. *)
Definition expiryDate {P : Packages} (c : Ctx) : option Z :=
  new_Date (expiry_ms (now c) (JWT_TTL (env c))).

(** The answer of a refused login. *)
Definition invalid_credentials : Response :=
  failure 401 "Invalid email or password" (JObj []).

(** The UNIQUE constraint of [users.email]. *)
Definition emails_unique (d : Database) : Prop :=
  NoDup (map u_email (users d)).

(** bcrypt: a digest is never the password it was computed from. *)
Definition digest_not_plain (P : Packages) : Prop :=
  forall salt p : string, bcrypt_digest salt p <> p.

(** What a user row holds besides the digest. *)
Definition public (r : UserRow) : Z * string * string * Z :=
  (u_id r, u_name r, u_email r, u_created_at r).

(** Two users tables that differ at most in the stored digests, which
    the password [p] matches in the one exactly when it does in the
    other. *)
Definition same_but_digests {P : Packages} (p : option string)
  (us us' : list UserRow) : Prop :=
  Forall2
    (fun r r' =>
       public r = public r' /\
       forall pw, p = Some pw ->
                  bcrypt_check pw (u_password r)
                  = bcrypt_check pw (u_password r'))
    us us'.

(** The same packages with another digest function. *)
Definition with_digest (P : Packages) (f : string -> string -> string)
  : Packages := {|
  mysql_number := @mysql_number P;
  bcrypt_digest := f;
  bcrypt_check := @bcrypt_check P;
  jwt_sign := @jwt_sign P;
  jwt_verify := @jwt_verify P;
  js_expiry_other := @js_expiry_other P;
  todoRoutes := @todoRoutes P
|}.

(** jsonwebtoken refuses to verify a token it has signed when it is
    given no key ("secret or public key must be provided"). *)
Definition signed_needs_secret (P : Packages) : Prop :=
  forall claims secret ttl now token now',
    jwt_sign claims secret ttl now = inr token ->
    exists e, jwt_verify token None now' = inl e.

(** The AUTO_INCREMENT invariant of the todos table. *)
Definition todos_wf (d : Database) : Prop :=
  NoDup (map t_id (todos d)) /\
  Forall (fun r => t_id r < next_todo_id d) (todos d).

(** The invariant of the users table: ids are pairwise distinct and
    below the counter, and no email is stored twice. *)
Definition users_wf (d : Database) : Prop :=
  NoDup (map u_id (users d)) /\
  Forall (fun r => u_id r < next_user_id d) (users d) /\
  emails_unique d.

(** The success envelope with a message of the handler's own. *)
Definition success (data : json) (message : string) : Response :=
  mkResponse 200
    (JObj [("success", JBool true); ("data", data);
           ("message", JStr message)]).

(** What the gate itself may log. *)
Definition gate_trace (t : list event) : Prop := t = [] \/ t = [JwtVerify].

(** The statements of [models/List.js] that read. *)
Definition select_lists : string := "SELECT * FROM lists WHERE user_id = ?".

(* ================================================================== *)
(** * Properties *)
(* ================================================================== *)

Ltac run :=
  unfold bind, ret, throw, try_catch, ask, get, put, emit, bind_param,
    bind_key, successResponse, errorResponse, result, final, trace in *;
  cbn in *.

Section Properties.

Context {P : Packages}.

(* ------------------------------------------------------------------ *)
(** ** Lists: ownership *)
(* ------------------------------------------------------------------ *)

Lemma in_nodup_map_eq {A B} (f : A -> B) (l : list A) (a b : A) :
  NoDup (map f l) -> In a l -> In b l -> f a = f b -> a = b.
Proof.
  induction l as [|x l IH]; cbn; intros ND Ha Hb E; [contradiction|].
  inversion ND as [|? ? Hx ND']; subst.
  destruct Ha as [->|Ha], Hb as [->|Hb]; auto.
  - exfalso. apply Hx. rewrite E. now apply in_map.
  - exfalso. apply Hx. rewrite <- E. now apply in_map.
Qed.

Lemma list_where_owner (id : key) (u : Z) (r : ListRow) :
  list_where id u r = true -> l_user_id r = u.
Proof.
  unfold list_where. intros H. apply andb_true_iff in H.
  destruct H as [_ H]. now apply Z.eqb_eq.
Qed.

Lemma others_remove (id : key) (u : Z) (ls : list ListRow) :
  others u (filter (fun r => negb (list_where id u r)) ls) = others u ls.
Proof.
  unfold others. induction ls as [|r ls IH]; cbn; [reflexivity|].
  destruct (list_where id u r) eqn:W; cbn.
  - apply list_where_owner in W. apply Z.eqb_eq in W. now rewrite W.
  - now rewrite IH.
Qed.

Lemma others_update (id : key) (u : Z) (name : string) (t : Z)
  (ls : list ListRow) :
  others u
    (map (fun r =>
            if list_where id u r
            then mkList (l_id r) name (l_user_id r) (l_created_at r) (Some t)
            else r) ls)
  = others u ls.
Proof.
  unfold others. induction ls as [|r ls IH]; cbn; [reflexivity|].
  destruct (list_where id u r) eqn:W; cbn.
  - apply list_where_owner in W. apply Z.eqb_eq in W. now rewrite W.
  - now rewrite IH.
Qed.

Lemma others_append (u : Z) (ls : list ListRow) (r : ListRow) :
  l_user_id r = u -> others u (ls ++ [r]) = others u ls.
Proof.
  intros E. unfold others. rewrite filter_app. cbn.
  apply Z.eqb_eq in E. rewrite E. cbn. apply app_nil_r.
Qed.

(** The invariant holds of an empty table and every List operation
    keeps it. *)
Lemma lists_wf_create (c : Ctx) (d : Database) name (u : Z) :
  lists_wf d -> lists_wf (final (List_create name u c d)).
Proof.
  intros [ND B]. unfold List_create. destruct name as [n|]; run.
  2: now split.
  unfold lists_wf, set_lists; cbn. split.
  - rewrite map_app. cbn. apply NoDup_app; auto.
    + constructor; [intros []|constructor].
    + intros a I [<-|[]]. apply in_map_iff in I.
      destruct I as [r [E I]]. rewrite Forall_forall in B.
      specialize (B r I). lia.
  - apply Forall_app. split.
    + eapply Forall_impl; [|exact B]. cbn. intros; lia.
    + constructor; [cbn; lia|constructor].
Qed.

Lemma lists_wf_remove (c : Ctx) (d : Database) (id : key) (u : Z) :
  lists_wf d -> lists_wf (final (List_remove id u c d)).
Proof.
  intros [ND B]. unfold List_remove. destruct id; run.
  3: now split.
  all: unfold lists_wf, set_lists; cbn; split;
    [ clear B; induction (lists d) as [|r ls IH]; cbn; [constructor|];
      inversion ND as [|? ? Hx ND']; subst;
      match goal with |- context [negb ?b] => destruct b end; cbn; auto;
      constructor; auto; intros I; apply Hx;
      apply in_map_iff in I; destruct I as [x [E I]];
      apply filter_In in I; destruct I as [I _];
      rewrite <- E; now apply in_map
    | rewrite Forall_forall in *; intros x I; apply filter_In in I;
      now apply B ].
Qed.

Lemma lists_wf_update (c : Ctx) (d : Database) name (id : key) (u : Z) :
  lists_wf d -> lists_wf (final (List_update name id u c d)).
Proof.
  intros [ND B]. unfold List_update. destruct name as [n|]; run.
  2: now split.
  destruct id; run.
  3: now split.
  all: unfold lists_wf, set_lists; cbn; split;
    [ rewrite map_map;
      erewrite map_ext; [exact ND|];
      intros r; now destruct (list_where _ u r)
    | rewrite Forall_forall in *; intros x I; apply in_map_iff in I;
      destruct I as [r [<- I]]; specialize (B r I);
      now destruct (list_where _ u r) ].
Qed.

(** Behind the gate, the router hands the caller's id ([req.user.id])
    to the model: whatever the request, the rows of the other users
    stay as they were. *)
Lemma listRoutes_isolation (c : Ctx) (d : Database) (req : Request)
  (rest : list string) (dec : Decoded) :
  rq_user req = Some dec ->
  others (d_id dec) (lists (final (listRoutes req rest c d)))
  = others (d_id dec) (lists d).
Proof.
  intros U. unfold listRoutes, answer.
  destruct (rq_method req), rest as [|id [|? ?]]; try reflexivity;
    unfold getUserLists, getListById, createList, updateList, deleteList,
      user_id, params_id, List_findAllByUserId, List_getListById,
      List_create, List_update, List_remove, destructure;
    cbn [rq_user rq_params_id rq_parsed with_params_id]; rewrite U; run.
  all: try reflexivity.
  all: try (destruct (filter _ (lists d)); run; reflexivity).
  all: try (destruct (rq_parsed req) as [body|]; run; try reflexivity).
  all: try (destruct (b_name body); run; try reflexivity).
  all: try (destruct (negb _); run).
  all: try (apply others_append; reflexivity).
  all: try apply others_update.
  all: try apply others_remove.
Qed.

(** C1 — tenant isolation for lists.  For a user id [u] and a stored
    list [L] that belongs to another user: [List.findAllByUserId(u)]
    returns only rows of [u] and never [L]; [List.getListById(L.id, u)]
    returns the empty array, and with any id it returns only rows of
    [u]; the two queries leave the table as it is; [create], [remove]
    and [update] called for [u], with any arguments, leave the rows of
    every other user exactly as they were; and so does every request
    that the router of [/api/lists] handles for a caller whose token
    carries the id [u]. *)
Theorem list_tenant_isolation (c : Ctx) (d : Database) (u : Z) (L : ListRow) :
  lists_wf d -> In L (lists d) -> l_user_id L <> u ->
  (exists rows,
      List_findAllByUserId u c d
      = (Return rows, d, [Sql "SELECT * FROM lists WHERE user_id = ?"]) /\
      ~ In L rows /\ Forall (fun r => l_user_id r = u) rows) /\
  List_getListById (KNum (l_id L)) u c d
  = (Return [], d, [Sql "SELECT * FROM lists WHERE id=? AND user_id = ?"]) /\
  (forall id, exists rows,
      List_getListById id u c d
      = (Return rows, d, [Sql "SELECT * FROM lists WHERE id=? AND user_id = ?"]) /\
      ~ In L rows /\ Forall (fun r => l_user_id r = u) rows) /\
  (forall name,
      others u (lists (final (List_create name u c d))) = others u (lists d)) /\
  (forall id,
      others u (lists (final (List_remove id u c d))) = others u (lists d)) /\
  (forall name id,
      others u (lists (final (List_update name id u c d)))
      = others u (lists d)) /\
  (forall req rest dec,
      rq_user req = Some dec -> d_id dec = u ->
      others u (lists (final (listRoutes req rest c d)))
      = others u (lists d)).
Proof.
  intros [ND _] HL Hu.
  assert (Hne : (l_user_id L =? u) = false) by now apply Z.eqb_neq.
  repeat split.
  - eexists. split; [reflexivity|]. split.
    + intros I. apply filter_In in I. destruct I as [_ I].
      unfold list_owned in I. congruence.
    + apply Forall_forall. intros r I. apply filter_In in I.
      destruct I as [_ I]. now apply Z.eqb_eq.
  - unfold List_getListById. run. f_equal. f_equal. f_equal.
    destruct (filter _ (lists d)) as [|r rs] eqn:F; [reflexivity|exfalso].
    assert (I : In r (filter (list_where (KNum (l_id L)) u) (lists d)))
      by (rewrite F; now left).
    apply filter_In in I. destruct I as [I W].
    unfold list_where in W. apply andb_true_iff in W. destruct W as [Wi Wu].
    cbn in Wi. apply Z.eqb_eq in Wi. apply Z.eqb_eq in Wu.
    assert (r = L) by (eapply in_nodup_map_eq; eauto). subst r. contradiction.
  - intros id. eexists. split; [reflexivity|]. split.
    + intros I. apply filter_In in I. destruct I as [_ I].
      apply list_where_owner in I. contradiction.
    + apply Forall_forall. intros r I. apply filter_In in I.
      destruct I as [_ I]. now apply list_where_owner in I.
  - intros name. unfold List_create. destruct name; run; [|reflexivity].
    now apply others_append.
  - intros id. unfold List_remove. destruct id; run; try reflexivity;
      apply others_remove.
  - intros name id. unfold List_update.
    destruct name; run; [|reflexivity].
    destruct id; run; try reflexivity; apply others_update.
  - intros req rest dec U <-. now apply listRoutes_isolation.
Qed.

(* ------------------------------------------------------------------ *)
(** ** Todos: no ownership check *)
(* ------------------------------------------------------------------ *)

Lemma count_pos_in {A} (f : A -> bool) (l : list A) (a : A) :
  In a l -> f a = true -> 0 < count f l.
Proof.
  intros I F. unfold count.
  assert (H : In a (filter f l)) by (apply filter_In; now split).
  destruct (filter f l); [contradiction|cbn; lia].
Qed.

Ltac branches :=
  repeat match goal with
         | |- context [negb (?x =? 0)] => destruct (negb (x =? 0)); run
         | |- context [match filter ?f ?l with _ => _ end] =>
             destruct (filter f l); run
         end.

Ltac blind :=
  intros c req u1 u2 d ls1 ls2 n1 n2;
  unfold deleteTodo, updateTodo, getTodoById, createTodo, getTodos,
    Todo_remove, Todo_update, Todo_getTodoById, Todo_create,
    Todo_findAllByListId, params_id, destructure, successResponse,
    errorResponse;
  cbn;
  destruct (rq_params_id req), (rq_parsed req) as [[? ? ? ? ?]|];
  cbn;
  repeat match goal with
         | o : option _ |- _ => destruct o
         end;
  run; branches; repeat split; reflexivity.

Lemma deleteTodo_blind : owner_blind deleteTodo.
Proof. blind. Qed.

Lemma updateTodo_blind : owner_blind updateTodo.
Proof. blind. Qed.

Lemma getTodoById_blind : owner_blind getTodoById.
Proof. blind. Qed.

Lemma createTodo_blind : owner_blind createTodo.
Proof. blind. Qed.

Lemma getTodos_blind : owner_blind getTodos.
Proof. blind. Qed.

(** C2 — todo operations never look at the owner.  The five handlers of
    the todo controller give the same response, run the same statements
    and leave the same todos whoever the caller is and whoever owns the
    lists; and [Todo.remove(t)] deletes a stored todo with id [t], and
    [Todo.getTodoById(t)] returns it, without any reference to a
    user. *)
Theorem todo_ops_ignore_owner :
  owner_blind deleteTodo /\ owner_blind updateTodo /\
  owner_blind getTodoById /\ owner_blind createTodo /\
  owner_blind getTodos /\
  (forall (c : Ctx) (d : Database) (T : TodoRow),
      In T (todos d) ->
      (exists n, result (Todo_remove (KNum (t_id T)) c d) = Return n /\ 0 < n) /\
      ~ In T (todos (final (Todo_remove (KNum (t_id T)) c d))) /\
      (exists rows,
          result (Todo_getTodoById (KNum (t_id T)) c d) = Return rows /\
          In T rows)).
Proof.
  split; [exact deleteTodo_blind|].
  split; [exact updateTodo_blind|].
  split; [exact getTodoById_blind|].
  split; [exact createTodo_blind|].
  split; [exact getTodos_blind|].
  intros c d T I.
  assert (W : todo_where (KNum (t_id T)) T = true)
    by (unfold todo_where; cbn; apply Z.eqb_refl).
  unfold Todo_remove, Todo_getTodoById. run. repeat split.
  - eexists. split; [reflexivity|]. now apply count_pos_in with (a := T).
  - intros I'. apply filter_In in I'. destruct I' as [_ I'].
    rewrite W in I'. discriminate.
  - eexists. split; [reflexivity|]. apply filter_In. now split.
Qed.

(* ------------------------------------------------------------------ *)
(** ** The gate *)
(* ------------------------------------------------------------------ *)

Lemma gate_falsy (c : Ctx) (d : Database) (req : Request)
  (next : Request -> M Response) :
  truthy (bearer req) = false ->
  authMiddleware req next c d = (Return unauthorized, d, []).
Proof.
  intros F. unfold authMiddleware. rewrite F. reflexivity.
Qed.

Lemma gate_verified (c : Ctx) (d : Database) (req : Request) (t : string)
  (dec : Decoded) (next : Request -> M Response) :
  bearer req = Some t -> t <> "" ->
  jwt_verify t (JWT_SECRET (env c)) (now c) = inr dec ->
  authMiddleware req next c d
  = after [JwtVerify] (next (with_user req (Some dec)) c d).
Proof.
  intros B N V. unfold authMiddleware, verify. rewrite B.
  destruct t as [|a t]; [contradiction|]. run. rewrite V. run.
  unfold after. run.
  destruct (next (with_user req (Some dec)) c d) as [[r d'] t'].
  reflexivity.
Qed.

Lemma gate_refused (c : Ctx) (d : Database) (req : Request) (t : string)
  (e : error) (next : Request -> M Response) :
  bearer req = Some t -> t <> "" ->
  jwt_verify t (JWT_SECRET (env c)) (now c) = inl e ->
  authMiddleware req next c d
  = (Return (failure 401 (concat_undef "Invalid token, TTL:" (JWT_TTL (env c)))
                     (JError e)),
     d, [JwtVerify]).
Proof.
  intros B N V. unfold authMiddleware, verify. rewrite B.
  destruct t as [|a t]; [contradiction|]. run. rewrite V. run.
  reflexivity.
Qed.

(** C3 — no header, no entry.  A request without an [Authorization]
    header is answered 401 "Unauthorized" by the gate whatever the rest
    of the chain is: nothing is executed and the database is left as it
    is; so it is for every such request to a path under [/api/lists] or
    [/api/todos]. *)
Theorem gate_rejects_missing_header (c : Ctx) (d : Database) (req : Request) :
  rq_authorization req = None ->
  (forall next, authMiddleware req next c d = (Return unauthorized, d, [])) /\
  (protected (rq_path req) = true ->
   app req c d = (Return unauthorized, d, [])).
Proof.
  intros H.
  assert (G : forall next,
             authMiddleware req next c d = (Return unauthorized, d, [])).
  { intros next. apply gate_falsy. unfold bearer. now rewrite H. }
  split; [exact G|].
  unfold protected, app.
  destruct (mount ["api"; "lists"] (rq_path req)); [intros _; apply G|].
  destruct (mount ["api"; "todos"] (rq_path req)); [intros _; apply G|].
  discriminate.
Qed.

Lemma replace_prefixed (t : string) :
  replace "Bearer " "" ("Bearer " +++ t) = t.
Proof. destruct t; reflexivity. Qed.

Lemma url_safe_no_bearer (s : string) :
  string_forall url_safe s = true -> String.prefix "Bearer " s = false.
Proof.
  intros H.
  do 7 (destruct s as [|? s]; [reflexivity|];
        cbn [String.prefix];
        match goal with
        | |- context [ascii_dec ?a ?b] =>
            destruct (ascii_dec a b); [subst|reflexivity]
        end).
  cbn in H. discriminate.
Qed.

Lemma replace_url_safe (t : string) :
  string_forall url_safe t = true -> replace "Bearer " "" t = t.
Proof.
  induction t as [|a t IH]; intros H; [reflexivity|].
  cbn [replace]. rewrite (url_safe_no_bearer _ H).
  cbn in H. apply andb_true_iff in H. destruct H as [_ H].
  now rewrite IH.
Qed.

Lemma listRoutes_header (req : Request) (h1 h2 : option string)
  (u : option Decoded) (rest : list string) :
  listRoutes (with_user (with_authorization req h1) u) rest
  = listRoutes (with_user (with_authorization req h2) u) rest.
Proof.
  unfold listRoutes. cbn.
  destruct (rq_method req), rest as [|? [|? ?]]; reflexivity.
Qed.

(** C9 — the prefix is optional.  For a token [t] that
    [jwt.verify] accepts (a compact serialisation: non-empty, base64url
    characters and dots), the gate lets the request through with
    [req.user] set to the decoded payload whether the header is [t] or
    ["Bearer " + t]; under [/api/lists] the two requests have the same
    outcome. *)
Theorem gate_accepts_bare_token (c : Ctx) (d : Database) (req : Request)
  (t : string) (dec : Decoded) :
  compact t = true ->
  jwt_verify t (JWT_SECRET (env c)) (now c) = inr dec ->
  let bare := with_authorization req (Some t) in
  let prefixed := with_authorization req (Some ("Bearer " +++ t)) in
  (forall next,
      authMiddleware bare next c d
      = after [JwtVerify] (next (with_user bare (Some dec)) c d)) /\
  (forall next,
      authMiddleware prefixed next c d
      = after [JwtVerify] (next (with_user prefixed (Some dec)) c d)) /\
  (forall rest,
      mount ["api"; "lists"] (rq_path req) = Some rest ->
      app bare c d = app prefixed c d).
Proof.
  intros C V bare prefixed.
  unfold compact in C. apply andb_true_iff in C. destruct C as [N S].
  assert (Ne : t <> "").
  { intros ->. discriminate. }
  assert (Gb : forall next,
             authMiddleware bare next c d
             = after [JwtVerify] (next (with_user bare (Some dec)) c d)).
  { intros next. apply gate_verified with (t := t); auto.
    unfold bearer, bare. cbn. now rewrite replace_url_safe. }
  assert (Gp : forall next,
             authMiddleware prefixed next c d
             = after [JwtVerify] (next (with_user prefixed (Some dec)) c d)).
  { intros next. apply gate_verified with (t := t); auto.
    unfold bearer, prefixed. cbn [rq_authorization with_authorization option_map].
    now rewrite replace_prefixed. }
  split; [exact Gb|]. split; [exact Gp|].
  intros rest M. unfold app.
  change (rq_path bare) with (rq_path req).
  change (rq_path prefixed) with (rq_path req).
  rewrite M, Gb, Gp. unfold bare, prefixed.
  now rewrite (listRoutes_header req (Some t) (Some ("Bearer " +++ t))).
Qed.


(* ------------------------------------------------------------------ *)
(** ** Registration and login *)
(* ------------------------------------------------------------------ *)

Lemma filter_nil_existsb {A} (f : A -> bool) (l : list A) :
  filter f l = [] -> existsb f l = false.
Proof.
  induction l as [|a l IH]; cbn; [reflexivity|].
  destruct (f a); [discriminate|]. exact IH.
Qed.

(** What a successful registration has done. *)
Lemma register_success (c : Ctx) (d : Database) (req : Request)
  (resp : Response) :
  result (register req c d) = Return resp -> status resp = 200 ->
  exists name email password token,
    b_name (rq_body req) = Some name /\
    b_email (rq_body req) = Some email /\
    b_password (rq_body req) = Some password /\
    filter (email_is email) (users d) = [] /\
    jwt_sign (mkClaims (next_user_id d) (Some email)) (signing_secret c)
             (JWT_TTL (env c)) (now c) = inr token /\
    register req c d
    = (Return (envelope (session token (expiryDate c))),
       set_users d
         (users d ++ [mkUser (next_user_id d) name email
                             (bcrypt_digest (salt c) password) (now c)])
         (next_user_id d + 1),
       [Controller "register"; Sql select_user; BcryptHash; Sql insert_user;
        JwtSign]).
Proof.
  unfold register, User_findByEmail, User_create, bcrypt_hash, sign,
    users_email_unique, destructure, rq_body.
  destruct (rq_parsed req) as [body|]; run.
  2: intros [= <-]; discriminate.
  destruct (b_email body) as [email|]; run.
  2: intros [= <-]; discriminate.
  destruct (filter (email_is email) (users d)) as [|u rows] eqn:F; run.
  2: intros [= <-]; discriminate.
  destruct (b_password body) as [password|]; run.
  2: intros [= <-]; discriminate.
  destruct (b_name body) as [name|]; run.
  2: intros [= <-]; discriminate.
  rewrite (filter_nil_existsb _ _ F). run.
  unfold signing_secret.
  destruct (jwt_sign _ _ _ _) as [e|token] eqn:S; run.
  1: intros [= <-]; discriminate.
  intros _ _. exists name, email, password, token.
  repeat split; assumption.
Qed.

(** The second answer of registration: the email is taken. *)
Lemma register_conflict (c : Ctx) (d : Database) (req : Request)
  (email : string) (u : UserRow) :
  b_email (rq_body req) = Some email ->
  In u (users d) -> u_email u = email ->
  register req c d
  = (Return (failure 409 "Email is already registered" (JObj [])), d,
     [Controller "register"; Sql select_user]).
Proof.
  intros E I Eu.
  unfold register, User_findByEmail, destructure. unfold rq_body in E.
  destruct (rq_parsed req) as [body|]; [|discriminate]. run. rewrite E. run.
  destruct (filter (email_is email) (users d)) as [|x rows] eqn:F; run.
  - exfalso.
    assert (H : In u (filter (email_is email) (users d))).
    { apply filter_In. split; [assumption|].
      unfold email_is. rewrite Eu. apply String.eqb_refl. }
    rewrite F in H. contradiction.
  - reflexivity.
Qed.

(** C5 — the same email twice.  A registration with an email that
    some stored user has is answered 409 "Email is already registered"
    after the SELECT alone (no hashing, no INSERT) and leaves the
    database as it is.  So when a registration succeeds (it has then
    inserted one row, with the id the table generated, and signed the
    token for that id), a second registration with the same email,
    whatever its name and password, is refused in that way, and the
    table holds exactly one row for that email. *)
Theorem register_same_email_twice (email : string) :
  (forall c d req u,
      b_email (rq_body req) = Some email ->
      In u (users d) -> u_email u = email ->
      register req c d
      = (Return (failure 409 "Email is already registered" (JObj [])), d,
         [Controller "register"; Sql select_user])) /\
  (forall c1 c2 d req1 req2 resp1,
      b_email (rq_body req1) = Some email ->
      b_email (rq_body req2) = Some email ->
      result (register req1 c1 d) = Return resp1 -> status resp1 = 200 ->
      let d1 := final (register req1 c1 d) in
      (exists row token,
          users d1 = users d ++ [row] /\
          u_id row = next_user_id d /\ u_email row = email /\
          next_user_id d1 = next_user_id d + 1 /\
          jwt_sign (mkClaims (u_id row) (Some email)) (signing_secret c1)
                   (JWT_TTL (env c1)) (now c1) = inr token /\
          resp1 = envelope (session token (expiryDate c1))) /\
      register req2 c2 d1
      = (Return (failure 409 "Email is already registered" (JObj [])), d1,
         [Controller "register"; Sql select_user]) /\
      count (email_is email) (users d1) = 1 /\
      count (email_is email) (users (final (register req2 c2 d1))) = 1).
Proof.
  split.
  { intros c d req u E I Eu.
    now apply register_conflict with (email := email) (u := u). }
  intros c1 c2 d req1 req2 resp1 E1 E2 R S d1.
  destruct (register_success c1 d req1 resp1 R S)
    as (name & email' & password & token & Hn & He & Hp & F & J & Run).
  rewrite E1 in He. injection He as <-.
  assert (D1 : d1 = set_users d
                 (users d ++ [mkUser (next_user_id d) name email
                                (bcrypt_digest (salt c1) password) (now c1)])
                 (next_user_id d + 1)).
  { unfold d1. now rewrite Run. }
  assert (Resp : resp1 = envelope (session token (expiryDate c1))).
  { rewrite Run in R. cbn in R. now injection R as <-. }
  assert (C : count (email_is email) (users d1) = 1).
  { rewrite D1. unfold count. cbn. rewrite filter_app, F. cbn.
    now rewrite String.eqb_refl. }
  assert (Second : register req2 c2 d1
                   = (Return (failure 409 "Email is already registered" (JObj [])),
                      d1, [Controller "register"; Sql select_user])).
  { apply register_conflict
      with (email := email)
           (u := mkUser (next_user_id d) name email
                   (bcrypt_digest (salt c1) password) (now c1)); auto.
    rewrite D1. cbn. apply in_or_app. right. now left. }
  repeat split.
  - eexists. exists token. rewrite D1. cbn. repeat split; auto.
  - exact Second.
  - exact C.
  - rewrite Second. exact C.
Qed.

Lemma unique_user_found (d : Database) (u : UserRow) :
  emails_unique d -> In u (users d) ->
  hd_error (filter (email_is (u_email u)) (users d)) = Some u.
Proof.
  intros ND I.
  destruct (filter (email_is (u_email u)) (users d)) as [|x rows] eqn:F.
  - exfalso.
    assert (H : In u (filter (email_is (u_email u)) (users d))).
    { apply filter_In. split; [assumption|]. apply String.eqb_refl. }
    rewrite F in H. contradiction.
  - cbn. f_equal.
    assert (H : In x (filter (email_is (u_email u)) (users d)))
      by (rewrite F; now left).
    apply filter_In in H. destruct H as [Ix Ex].
    unfold email_is in Ex. apply String.eqb_eq in Ex.
    eapply in_nodup_map_eq; eauto.
Qed.

Lemma no_user_filter (d : Database) (email : string) :
  (forall r, In r (users d) -> u_email r <> email) ->
  filter (email_is email) (users d) = [].
Proof.
  intros H.
  destruct (filter (email_is email) (users d)) as [|x rows] eqn:F;
    [reflexivity|exfalso].
  assert (I : In x (filter (email_is email) (users d)))
    by (rewrite F; now left).
  apply filter_In in I. destruct I as [I E].
  apply String.eqb_eq in E. exact (H x I E).
Qed.

Lemma login_unknown_email (c : Ctx) (d : Database) (req : Request)
  (email : string) :
  b_email (rq_body req) = Some email ->
  filter (email_is email) (users d) = [] ->
  login req c d
  = (Return invalid_credentials, d, [Controller "login"; Sql select_user]).
Proof.
  intros E F. unfold login, User_findByEmail, destructure.
  unfold rq_body in E.
  destruct (rq_parsed req) as [body|]; [|discriminate]. run. rewrite E. run.
  rewrite F. reflexivity.
Qed.

Lemma login_wrong_password (c : Ctx) (d : Database) (req : Request)
  (email password : string) (u : UserRow) :
  b_email (rq_body req) = Some email ->
  b_password (rq_body req) = Some password ->
  hd_error (filter (email_is email) (users d)) = Some u ->
  bcrypt_check password (u_password u) = false ->
  login req c d
  = (Return invalid_credentials, d,
     [Controller "login"; Sql select_user; BcryptCompare]).
Proof.
  intros E Pw F C. unfold login, User_findByEmail, bcrypt_compare, destructure.
  unfold rq_body in E, Pw.
  destruct (rq_parsed req) as [body|]; [|discriminate]. run.
  rewrite E, Pw. run.
  destruct (filter (email_is email) (users d)) as [|x rows]; [discriminate|].
  cbn in F. injection F as ->. run. rewrite C. reflexivity.
Qed.

(** The two refusals of a login that carries a password.  A login with
    an email that no user has, and a login with the email of a stored
    user and a password that bcrypt compares with the stored digest and
    does not match, get the same response: 401, "Invalid email or
    password", an empty error object; neither changes the database. *)
Lemma login_failures_indistinguishable (c1 c2 : Ctx) (d1 d2 : Database)
  (req1 req2 : Request) (e1 e2 p2 : string) (u : UserRow) :
  b_email (rq_body req1) = Some e1 ->
  (forall r, In r (users d1) -> u_email r <> e1) ->
  b_email (rq_body req2) = Some e2 ->
  b_password (rq_body req2) = Some p2 ->
  emails_unique d2 -> In u (users d2) -> u_email u = e2 ->
  bcrypt_check p2 (u_password u) = false ->
  result (login req1 c1 d1) = Return invalid_credentials /\
  result (login req2 c2 d2) = Return invalid_credentials /\
  result (login req1 c1 d1) = result (login req2 c2 d2) /\
  final (login req1 c1 d1) = d1 /\ final (login req2 c2 d2) = d2.
Proof.
  intros E1 N1 E2 P2 U I Eu C.
  rewrite (login_unknown_email c1 d1 req1 e1 E1 (no_user_filter d1 e1 N1)).
  subst e2.
  rewrite (login_wrong_password c2 d2 req2 (u_email u) p2 u E2 P2
             (unique_user_found d2 u U I) C).
  repeat split.
Qed.

(** A login that carries the email of a stored user and no password at
    all is answered 500, since [bcrypt.compare] throws on
    [undefined]. *)
Remark login_missing_password (c : Ctx) (d : Database) (req : Request)
  (email : string) (u : UserRow) :
  b_email (rq_body req) = Some email ->
  b_password (rq_body req) = None ->
  hd_error (filter (email_is email) (users d)) = Some u ->
  result (login req c d)
  = Return (failure 500 "Error logging in user"
              (JError (bcrypt_illegal "undefined, string"))).
Proof.
  intros E Pw F. unfold login, User_findByEmail, bcrypt_compare, destructure.
  unfold rq_body in E, Pw.
  destruct (rq_parsed req) as [body|]; [|discriminate]. run.
  rewrite E, Pw. run.
  destruct (filter (email_is email) (users d)) as [|x rows]; [discriminate|].
  reflexivity.
Qed.

(** C4 — the answer of a login without a password tells whether the
    email is registered.  One and the same request, with an email and
    no password field, is answered 401 "Invalid email or password" by a
    database where no user has the email, and 500 "Error logging in
    user" by a database where some user has it: [bcrypt.compare] is
    called with [undefined], throws, and the [catch] answers.  The two
    responses differ in status and in message, so the two failures are
    told apart, against the comment of [login] on its 401. *)
Theorem login_without_password_tells_email (c1 c2 : Ctx) (d1 d2 : Database)
  (req : Request) (email : string) (u : UserRow) :
  b_email (rq_body req) = Some email ->
  b_password (rq_body req) = None ->
  (forall r, In r (users d1) -> u_email r <> email) ->
  In u (users d2) -> u_email u = email ->
  result (login req c1 d1) = Return invalid_credentials /\
  result (login req c2 d2)
  = Return (failure 500 "Error logging in user"
              (JError (bcrypt_illegal "undefined, string"))) /\
  result (login req c1 d1) <> result (login req c2 d2) /\
  final (login req c1 d1) = d1 /\ final (login req c2 d2) = d2.
Proof.
  intros E Pw N I Eu.
  rewrite (login_unknown_email c1 d1 req email E (no_user_filter d1 email N)).
  assert (R : login req c2 d2
              = (Return (failure 500 "Error logging in user"
                           (JError (bcrypt_illegal "undefined, string"))),
                 d2, [Controller "login"; Sql select_user])).
  { unfold login, User_findByEmail, bcrypt_compare, destructure.
    unfold rq_body in E, Pw.
    destruct (rq_parsed req) as [body|]; [|discriminate]. run.
    rewrite E, Pw. run.
    destruct (filter (email_is email) (users d2)) as [|x rows] eqn:F.
    - exfalso.
      assert (H : In u (filter (email_is email) (users d2))).
      { apply filter_In. split; [assumption|].
        unfold email_is. rewrite Eu. apply String.eqb_refl. }
      rewrite F in H. contradiction.
    - run. reflexivity. }
  rewrite R. cbn. repeat split. discriminate.
Qed.

(** What a successful login has done. *)
Lemma login_success (c : Ctx) (d : Database) (req : Request)
  (resp : Response) :
  result (login req c d) = Return resp -> status resp = 200 ->
  exists email password user token,
    b_email (rq_body req) = Some email /\
    b_password (rq_body req) = Some password /\
    hd_error (filter (email_is email) (users d)) = Some user /\
    bcrypt_check password (u_password user) = true /\
    jwt_sign (mkClaims (u_id user) (Some (u_email user))) (signing_secret c)
             (JWT_TTL (env c)) (now c) = inr token /\
    login req c d
    = (Return (envelope (session token (expiryDate c))), d,
       [Controller "login"; Sql select_user; BcryptCompare; JwtSign]).
Proof.
  unfold login, User_findByEmail, bcrypt_compare, sign, destructure, rq_body.
  destruct (rq_parsed req) as [body|]; run.
  2: discriminate.
  destruct (b_email body) as [email|]; run.
  2: intros [= <-]; discriminate.
  destruct (filter (email_is email) (users d)) as [|u rows] eqn:F; run.
  1: intros [= <-]; discriminate.
  destruct (b_password body) as [password|]; run.
  2: intros [= <-]; discriminate.
  destruct (bcrypt_check password (u_password u)) eqn:C; run.
  2: intros [= <-]; discriminate.
  unfold signing_secret.
  destruct (jwt_sign _ _ _ _) as [e|token] eqn:S; run.
  1: intros [= <-]; discriminate.
  intros _ _. exists email, password, u, token.
  repeat split; try assumption. now rewrite F.
Qed.

(* ------------------------------------------------------------------ *)
(** ** The expiry date of a session *)
(* ------------------------------------------------------------------ *)








(* ------------------------------------------------------------------ *)
(** ** The password digest *)
(* ------------------------------------------------------------------ *)

Lemma User_create_stores_digest (c : Ctx) (d : Database)
  (name email : option string) (password : string) (id : Z) :
  result (User_create name email (Some password) c d) = Return id ->
  exists row,
    users (final (User_create name email (Some password) c d))
    = users d ++ [row] /\
    u_id row = id /\
    u_password row = bcrypt_digest (salt c) password.
Proof.
  unfold User_create, bcrypt_hash, users_email_unique.
  destruct name as [name|]; run; [|discriminate].
  destruct email as [email|]; run; [|discriminate].
  destruct (existsb (email_is email) (users d)); run; [discriminate|].
  intros [= <-]. eexists. repeat split.
Qed.

Lemma register_any_digest (f : string -> string -> string) (c : Ctx)
  (d : Database) (req : Request) :
  result (@register (with_digest P f) req c d) = result (register req c d).
Proof.
  unfold register, User_findByEmail, User_create, bcrypt_hash, sign,
    users_email_unique, expiry_ms, destructure.
  destruct (rq_parsed req) as [body|]; run; [|reflexivity].
  destruct (b_email body) as [email|]; run; [|reflexivity].
  destruct (filter (email_is email) (users d)); run; [|reflexivity].
  destruct (b_password body); run; [|reflexivity].
  destruct (b_name body); run; [|reflexivity].
  destruct (existsb (email_is email) (users d)); run; [reflexivity|].
  destruct (jwt_sign _ _ _ _); run; reflexivity.
Qed.

Lemma same_but_digests_found (p : option string) (email : string)
  (us us' : list UserRow) :
  same_but_digests p us us' ->
  match hd_error (filter (email_is email) us),
        hd_error (filter (email_is email) us') with
  | None, None => True
  | Some r, Some r' =>
      public r = public r' /\
      forall pw, p = Some pw ->
                 bcrypt_check pw (u_password r)
                 = bcrypt_check pw (u_password r')
  | _, _ => False
  end.
Proof.
  induction 1 as [|r r' us us' [Pub Chk] _ IH]; cbn; [exact I|].
  assert (E : email_is email r = email_is email r').
  { unfold email_is. unfold public in Pub. now injection Pub as _ _ -> _. }
  rewrite E. destruct (email_is email r'); cbn; auto.
Qed.

Lemma login_any_digest (c : Ctx) (d d' : Database) (req : Request) :
  same_but_digests (b_password (rq_body req)) (users d) (users d') ->
  result (login req c d) = result (login req c d').
Proof.
  intros S. unfold login, User_findByEmail, bcrypt_compare, sign, destructure.
  unfold rq_body in S.
  destruct (rq_parsed req) as [body|]; run; [|reflexivity].
  destruct (b_email body) as [email|]; run; [|reflexivity].
  pose proof (same_but_digests_found _ email _ _ S) as F.
  destruct (filter (email_is email) (users d)) as [|r rows],
           (filter (email_is email) (users d')) as [|r' rows'];
    cbn in F; try contradiction; run; [reflexivity|].
  destruct F as [Pub Chk].
  destruct (b_password body) as [pw|]; run; [|reflexivity].
  rewrite <- (Chk pw eq_refl).
  destruct (bcrypt_check pw (u_password r)); run; [|reflexivity].
  unfold public in Pub. injection Pub as -> _ -> _.
  destruct (jwt_sign _ _ _ _); run; reflexivity.
Qed.

(** C8 — the digest is stored, never the password, and never sent.
    [User.create] appends one row whose password column is the bcrypt
    digest of the password it was given, which is not that password; a
    successful register or login answers with data made of [token] and
    [expiresAt] alone; and no answer of either handler depends on a
    digest: register answers the same whatever bcrypt computes, and
    login answers the same on two tables that differ only in digests
    that match the submitted password alike. *)
Theorem digest_stored_never_returned :
  digest_not_plain P ->
  (forall c d name email password id,
      result (User_create name email (Some password) c d) = Return id ->
      exists row,
        users (final (User_create name email (Some password) c d))
        = users d ++ [row] /\
        u_id row = id /\
        u_password row = bcrypt_digest (salt c) password /\
        u_password row <> password) /\
  (forall c d req resp,
      result (register req c d) = Return resp \/
      result (login req c d) = Return resp ->
      status resp = 200 ->
      exists token,
        resp = envelope (JObj [("token", JStr token);
                               ("expiresAt", JDate (expiryDate c))])) /\
  (forall f c d req,
      result (@register (with_digest P f) req c d)
      = result (register req c d)) /\
  (forall c d d' req,
      same_but_digests (b_password (rq_body req)) (users d) (users d') ->
      result (login req c d) = result (login req c d')).
Proof.
  intros NP. repeat split.
  - intros c d name email password id R.
    destruct (User_create_stores_digest c d name email password id R)
      as (row & U & I & D).
    exists row. repeat split; auto. rewrite D. apply NP.
  - intros c d req resp [R|R] S.
    + destruct (register_success c d req resp R S)
        as (name & email & password & token & _ & _ & _ & _ & _ & Run).
      exists token. rewrite Run in R. cbn in R. now injection R as <-.
    + destruct (login_success c d req resp R S)
        as (email & password & user & token & _ & _ & _ & _ & _ & Run).
      exists token. rewrite Run in R. cbn in R. now injection R as <-.
  - apply register_any_digest.
  - apply login_any_digest.
Qed.

(* ------------------------------------------------------------------ *)
(** ** Signing with the fallback, verifying without *)
(* ------------------------------------------------------------------ *)

Lemma app_gated (c : Ctx) (d : Database) (req : Request)
  (x : Res Response * Database * list event) :
  (forall next, authMiddleware req next c d = x) ->
  protected (rq_path req) = true -> app req c d = x.
Proof.
  intros G. unfold protected, app.
  destruct (mount ["api"; "lists"] (rq_path req)); [intros _; apply G|].
  destruct (mount ["api"; "todos"] (rq_path req)); [intros _; apply G|].
  discriminate.
Qed.

Lemma gate_without_secret (c : Ctx) (d : Database) (req : Request)
  (token : string) :
  (forall now', exists e, jwt_verify token None now' = inl e) ->
  JWT_SECRET (env c) = None ->
  rq_authorization req = Some ("Bearer " +++ token) ->
  exists resp t,
    status resp = 401 /\ (t = [] \/ t = [JwtVerify]) /\
    forall next, authMiddleware req next c d = (Return resp, d, t).
Proof.
  intros K U H.
  assert (B : bearer req = Some token).
  { unfold bearer. rewrite H. cbn [option_map].
    now rewrite replace_prefixed. }
  destruct token as [|a t].
  - exists unauthorized, []. split; [reflexivity|]. split; [now left|].
    intros next. apply gate_falsy. now rewrite B.
  - destruct (K (now c)) as [e V]. rewrite <- U in V.
    exists (failure 401 (concat_undef "Invalid token, TTL:" (JWT_TTL (env c)))
                    (JError e)), [JwtVerify].
    split; [reflexivity|]. split; [now right|].
    intros next. apply gate_refused with (t := String a t); auto.
    discriminate.
Qed.

(** C10 — tokens signed with the fallback are refused.  With
    JWT_SECRET unset, a successful register or login has signed its
    token with the hard-coded fallback secret; the gate, which hands
    the unset variable to [jwt.verify], answers 401 to the request that
    carries that token, at any later time and on any database, and
    runs nothing downstream. *)
Theorem unset_secret_locks_out (c : Ctx) (d : Database) (req : Request)
  (resp : Response) :
  signed_needs_secret P -> JWT_SECRET (env c) = None ->
  result (register req c d) = Return resp \/
  result (login req c d) = Return resp ->
  status resp = 200 ->
  exists token claims,
    resp = envelope (session token (expiryDate c)) /\
    jwt_sign claims fallback_secret (JWT_TTL (env c)) (now c) = inr token /\
    forall c' d' req',
      JWT_SECRET (env c') = None ->
      rq_authorization req' = Some ("Bearer " +++ token) ->
      exists resp' t,
        status resp' = 401 /\ (t = [] \/ t = [JwtVerify]) /\
        (forall next,
            authMiddleware req' next c' d' = (Return resp', d', t)) /\
        (protected (rq_path req') = true ->
         app req' c' d' = (Return resp', d', t)).
Proof.
  intros K U R S.
  assert (F : signing_secret c = fallback_secret).
  { unfold signing_secret, or_default. now rewrite U. }
  assert (G : forall token claims,
             jwt_sign claims fallback_secret (JWT_TTL (env c)) (now c)
             = inr token ->
             forall c' d' req',
               JWT_SECRET (env c') = None ->
               rq_authorization req' = Some ("Bearer " +++ token) ->
               exists resp' t,
                 status resp' = 401 /\ (t = [] \/ t = [JwtVerify]) /\
                 (forall next,
                     authMiddleware req' next c' d' = (Return resp', d', t)) /\
                 (protected (rq_path req') = true ->
                  app req' c' d' = (Return resp', d', t))).
  { intros token claims J c' d' req' U' H.
    destruct (gate_without_secret c' d' req' token
                (fun now' => K _ _ _ _ _ now' J) U' H)
      as (resp' & t & St & Tr & Gt).
    exists resp', t. repeat split; auto. now apply app_gated. }
  destruct R as [R|R].
  - destruct (register_success c d req resp R S)
      as (name & email & password & token & _ & _ & _ & _ & J & Run).
    rewrite F in J. exists token. eexists. split; [|split; [exact J|]].
    + rewrite Run in R. cbn in R. now injection R as <-.
    + now apply G with (claims := mkClaims (next_user_id d) (Some email)).
  - destruct (login_success c d req resp R S)
      as (email & password & user & token & _ & _ & _ & _ & J & Run).
    rewrite F in J. exists token. eexists. split; [|split; [exact J|]].
    + rewrite Run in R. cbn in R. now injection R as <-.
    + now apply G
        with (claims := mkClaims (u_id user) (Some (u_email user))).
Qed.

End Properties.

(* ================================================================== *)
(** * The properties at work on the test doubles *)
(* ================================================================== *)

Lemma length_append (a b : string) :
  String.length (a +++ b) = (String.length a + String.length b)%nat.
Proof. induction a as [|x a IH]; cbn; [reflexivity|now rewrite IH]. Qed.

Lemma stub_digest_not_plain : digest_not_plain Stub.packages.
Proof.
  intros salt p E. apply (f_equal String.length) in E.
  cbn [bcrypt_digest Stub.packages] in E. unfold Stub.digest in E.
  rewrite !length_append in E. cbn in E. lia.
Qed.

Lemma stub_signed_needs_secret : signed_needs_secret Stub.packages.
Proof. intros claims secret ttl now token now' _. eexists. reflexivity. Qed.

Lemma two_tenants_wf : lists_wf Stub.two_tenants.
Proof.
  split.
  - cbn. repeat constructor; cbn; intuition discriminate.
  - cbn. repeat constructor; cbn; lia.
Qed.

(** Luigi (user 2) cannot see Mario's list. *)
Lemma list_tenant_isolation_witness :
  @List_getListById Stub.packages (KNum 1) 2 (Stub.at_noon Stub.dev)
    Stub.two_tenants
  = (Return [], Stub.two_tenants,
     [Sql "SELECT * FROM lists WHERE id=? AND user_id = ?"]).
Proof.
  refine (proj1 (proj2 (@list_tenant_isolation Stub.packages
                          (Stub.at_noon Stub.dev) Stub.two_tenants 2
                          Stub.groceries two_tenants_wf _ _))).
  - cbn. now left.
  - cbn. lia.
Defined.

Lemma gate_rejects_missing_header_witness :
  @app Stub.packages (Stub.my_lists None)
       (Stub.at_noon Stub.dev) Stub.empty
  = (Return unauthorized, Stub.empty, []).
Proof.
  apply (proj2 (@gate_rejects_missing_header Stub.packages
                  (Stub.at_noon Stub.dev) Stub.empty
                  (Stub.my_lists None)
                  eq_refl)).
  reflexivity.
Defined.

(** An unknown email on an empty database, and Mario's email with a
    wrong password. *)
Lemma login_failures_indistinguishable_witness :
  result (@login Stub.packages Stub.stranger (Stub.at_noon Stub.dev)
            Stub.empty)
  = result (@login Stub.packages Stub.mistyped (Stub.at_noon Stub.dev)
              Stub.registered).
Proof.
  refine (proj1 (proj2 (proj2
    (@login_failures_indistinguishable Stub.packages
       (Stub.at_noon Stub.dev) (Stub.at_noon Stub.dev)
       Stub.empty Stub.registered Stub.stranger Stub.mistyped
       "nobody@test.it" "mario@test.it" "wrong" Stub.mario_row
       eq_refl _ eq_refl eq_refl _ _ eq_refl eq_refl)))).
  - intros r [].
  - unfold emails_unique. cbn. repeat constructor. intros [].
  - cbn. now left.
Defined.

Lemma register_same_email_twice_witness :
  count (email_is "mario@test.it")
    (users (final (@register Stub.packages Stub.mario (Stub.at_noon Stub.dev)
                     (final (@register Stub.packages Stub.mario
                               (Stub.at_noon Stub.dev) Stub.empty)))))
  = 1.
Proof.
  refine (proj2 (proj2 (proj2
    (proj2 (@register_same_email_twice Stub.packages "mario@test.it")
       (Stub.at_noon Stub.dev) (Stub.at_noon Stub.dev) Stub.empty
       Stub.mario Stub.mario
       (envelope (session Stub.mario_token (Some 1703600000000)))
       eq_refl eq_refl _ eq_refl)))).
  vm_compute. reflexivity.
Defined.





(** The same login against a database without Mario and against one
    with him. *)
Lemma login_without_password_tells_email_witness :
  result (@login Stub.packages Stub.no_password (Stub.at_noon Stub.dev)
            Stub.empty)
  <> result (@login Stub.packages Stub.no_password (Stub.at_noon Stub.dev)
               Stub.registered).
Proof.
  refine (proj1 (proj2 (proj2
    (@login_without_password_tells_email Stub.packages
       (Stub.at_noon Stub.dev) (Stub.at_noon Stub.dev)
       Stub.empty Stub.registered Stub.no_password
       "mario@test.it" Stub.mario_row
       eq_refl eq_refl _ _ eq_refl)))).
  - intros r [].
  - cbn. now left.
Defined.

Lemma digest_stored_never_returned_witness :
  exists row,
    users (final (@User_create Stub.packages (Some "Mario")
                    (Some "mario@test.it") (Some "pw123")
                    (Stub.at_noon Stub.dev) Stub.empty))
    = users Stub.empty ++ [row] /\
    u_id row = 1 /\
    u_password row
    = @bcrypt_digest Stub.packages (salt (Stub.at_noon Stub.dev)) "pw123" /\
    u_password row <> "pw123".
Proof.
  exact (proj1 (@digest_stored_never_returned Stub.packages
                  stub_digest_not_plain)
           (Stub.at_noon Stub.dev) Stub.empty (Some "Mario")
           (Some "mario@test.it") "pw123" 1 eq_refl).
Defined.

Lemma gate_accepts_bare_token_witness :
  @app Stub.packages
    (with_authorization (Stub.my_lists None)
       (Some Stub.mario_token))
    (Stub.at_noon Stub.dev) Stub.registered
  = @app Stub.packages
      (with_authorization (Stub.my_lists None)
         (Some ("Bearer " +++ Stub.mario_token)))
      (Stub.at_noon Stub.dev) Stub.registered.
Proof.
  refine (proj2 (proj2
    (@gate_accepts_bare_token Stub.packages (Stub.at_noon Stub.dev)
       Stub.registered
       (Stub.my_lists None)
       Stub.mario_token (mkDecoded 1 None 1700000000 1700003600) _ _))
    [] eq_refl).
  - vm_compute. reflexivity.
  - vm_compute. reflexivity.
Defined.

(** Mario registers while JWT_SECRET is unset and comes back with his
    token. *)
Lemma unset_secret_locks_out_witness :
  exists resp' t,
    status resp' = 401 /\ (t = [] \/ t = [JwtVerify]) /\
    @app Stub.packages
      (Stub.my_lists (Some ("Bearer " +++ Stub.fallback_token)))
      (Stub.at_noon Stub.unset) Stub.registered
    = (Return resp', Stub.registered, t).
Proof.
  destruct (@unset_secret_locks_out Stub.packages (Stub.at_noon Stub.unset)
              Stub.empty Stub.mario
              (envelope (session Stub.fallback_token (Some 1703600000000)))
              stub_signed_needs_secret eq_refl (or_introl eq_refl) eq_refl)
    as (token & claims & E & _ & G).
  injection E as <-.
  destruct (G (Stub.at_noon Stub.unset) Stub.registered
              (Stub.my_lists (Some ("Bearer " +++ Stub.fallback_token)))
              eq_refl eq_refl)
    as (resp' & t & S & T & _ & A).
  exists resp', t. repeat split; auto.
Defined.

(* ================================================================== *)
(** * Further properties of the models, the handlers and the gate *)
(* ================================================================== *)

Section Further.

Context {P : Packages}.

(* ------------------------------------------------------------------ *)
(** ** Lists: what the statements do to a row *)
(* ------------------------------------------------------------------ *)

Lemma filter_unique {A B} (f : A -> B) (p : A -> bool) (l : list A) (a : A) :
  NoDup (map f l) -> In a l -> p a = true ->
  (forall x, In x l -> p x = true -> f x = f a) ->
  filter p l = [a].
Proof.
  induction l as [|x l IH]; cbn; intros ND I Pa U; [contradiction|].
  inversion ND as [|? ? Hx ND']; subst.
  destruct I as [->|I].
  - rewrite Pa. f_equal.
    destruct (filter p l) as [|y ys] eqn:F; [reflexivity|exfalso].
    assert (Iy : In y (filter p l)) by (rewrite F; now left).
    apply filter_In in Iy. destruct Iy as [Iy Py].
    apply Hx. rewrite <- (U y (or_intror Iy) Py). now apply in_map.
  - destruct (p x) eqn:Px.
    + exfalso. apply Hx. rewrite (U x (or_introl eq_refl) Px).
      now apply in_map.
    + apply IH; auto.
Qed.

Lemma filter_none {A} (p : A -> bool) (l : list A) :
  (forall x, In x l -> p x = false) -> filter p l = [].
Proof.
  induction l as [|x l IH]; cbn; intros H; [reflexivity|].
  rewrite (H x (or_introl eq_refl)). apply IH. intros y I. apply H. now right.
Qed.

Lemma filter_all {A} (p : A -> bool) (l : list A) :
  (forall x, In x l -> p x = true) -> filter p l = l.
Proof.
  induction l as [|x l IH]; cbn; intros H; [reflexivity|].
  rewrite (H x (or_introl eq_refl)). f_equal. apply IH.
  intros y I. apply H. now right.
Qed.

(** X1 — create, then read.  [List.create(name, userId)] returns the
    value of the AUTO_INCREMENT counter, an id no stored list has;
    afterwards [List.getListById] with that id returns exactly the new
    row to [userId] and nothing to anybody else, and
    [List.findAllByUserId(userId)] returns what it returned before
    followed by the new row. *)
Theorem List_create_then_read (c c' : Ctx) (d : Database) (name : string)
  (u : Z) :
  lists_wf d ->
  let r := List_create (Some name) u c d in
  let row := mkList (next_list_id d) name u (now c) None in
  result r = Return (next_list_id d) /\
  (forall x, In x (lists d) -> l_id x <> next_list_id d) /\
  result (List_getListById (KNum (next_list_id d)) u c' (final r))
  = Return [row] /\
  (forall v, v <> u ->
      result (List_getListById (KNum (next_list_id d)) v c' (final r))
      = Return []) /\
  result (List_findAllByUserId u c' (final r))
  = Return (filter (list_owned u) (lists d) ++ [row]).
Proof.
  intros [ND B] r row. rewrite Forall_forall in B.
  assert (Fresh : forall x, In x (lists d) -> l_id x <> next_list_id d).
  { intros x I E. specialize (B x I). lia. }
  unfold r, List_create, List_getListById, List_findAllByUserId. run.
  repeat split.
  - exact Fresh.
  - rewrite filter_app. cbn.
    rewrite filter_none.
    + unfold list_where. cbn. now rewrite !Z.eqb_refl.
    + intros x I. unfold list_where. cbn.
      destruct (Z.eqb_spec (l_id x) (next_list_id d)) as [E|_];
        [now apply Fresh in E|reflexivity].
  - intros v Hv. rewrite filter_app. cbn.
    rewrite filter_none.
    + unfold list_where. cbn.
      destruct (Z.eqb_spec u v) as [E|_]; [congruence|].
      now rewrite andb_false_r.
    + intros x I. unfold list_where. cbn.
      destruct (Z.eqb_spec (l_id x) (next_list_id d)) as [E|_];
        [now apply Fresh in E|reflexivity].
  - rewrite filter_app. cbn. unfold list_owned at 2. cbn.
    now rewrite Z.eqb_refl.
Qed.

Lemma owned_row_selected (d : Database) (u : Z) (L : ListRow) :
  lists_wf d -> In L (lists d) -> l_user_id L = u ->
  filter (list_where (KNum (l_id L)) u) (lists d) = [L].
Proof.
  intros [ND _] I O.
  apply filter_unique with (f := l_id); auto.
  - unfold list_where. cbn. rewrite Z.eqb_refl. cbn. now apply Z.eqb_eq.
  - intros x _ W. unfold list_where in W. cbn in W.
    apply andb_true_iff in W. destruct W as [W _]. now apply Z.eqb_eq.
Qed.

(** X2 — remove, then read.  [List.remove(L.id, userId)] on a stored
    list [L] of [userId] reports one affected row; [L] is gone, every
    other row is still there, the counter is untouched, and
    [List.getListById(L.id, userId)] is empty afterwards. *)
Theorem List_remove_then_read (c c' : Ctx) (d : Database) (u : Z)
  (L : ListRow) :
  lists_wf d -> In L (lists d) -> l_user_id L = u ->
  let r := List_remove (KNum (l_id L)) u c d in
  result r = Return 1 /\
  ~ In L (lists (final r)) /\
  (forall x, In x (lists d) -> x <> L -> In x (lists (final r))) /\
  next_list_id (final r) = next_list_id d /\
  result (List_getListById (KNum (l_id L)) u c' (final r)) = Return [].
Proof.
  intros WF I O r. pose proof (owned_row_selected d u L WF I O) as Sel.
  destruct WF as [ND _].
  assert (WL : list_where (KNum (l_id L)) u L = true).
  { unfold list_where. cbn. rewrite Z.eqb_refl. cbn. now apply Z.eqb_eq. }
  unfold r, List_remove, List_getListById. run. repeat split.
  - unfold count. now rewrite Sel.
  - intros H. apply filter_In in H. destruct H as [_ H].
    rewrite WL in H. discriminate.
  - intros x Ix Hx. apply filter_In. split; [assumption|].
    destruct (list_where (KNum (l_id L)) u x) eqn:W; [exfalso|reflexivity].
    assert (Hin : In x (filter (list_where (KNum (l_id L)) u) (lists d)))
      by (apply filter_In; now split).
    rewrite Sel in Hin. destruct Hin as [E|[]]. now subst.
  - f_equal. apply filter_none. intros x Hx.
    apply filter_In in Hx. destruct Hx as [_ Hx].
    now destruct (list_where (KNum (l_id L)) u x).
Qed.

(** X3 — update, then read.  [List.update({name, id: L.id, userId})]
    on a stored list [L] of [userId] reports one affected row and
    leaves the ids of the table as they were; afterwards
    [List.getListById(L.id, userId)] returns [L] with the new name, the
    time of the update in [updated_at] and its id, owner and creation
    time unchanged; every other row is still there. *)
Theorem List_update_then_read (c c' : Ctx) (d : Database) (u : Z)
  (L : ListRow) (name : string) :
  lists_wf d -> In L (lists d) -> l_user_id L = u ->
  let r := List_update (Some name) (KNum (l_id L)) u c d in
  result r = Return 1 /\
  map l_id (lists (final r)) = map l_id (lists d) /\
  (forall x, In x (lists d) -> x <> L -> In x (lists (final r))) /\
  result (List_getListById (KNum (l_id L)) u c' (final r))
  = Return [mkList (l_id L) name u (l_created_at L) (Some (now c))].
Proof.
  intros WF I O r. pose proof (owned_row_selected d u L WF I O) as Sel.
  assert (WL : list_where (KNum (l_id L)) u L = true).
  { unfold list_where. cbn. rewrite Z.eqb_refl. cbn. now apply Z.eqb_eq. }
  unfold r, List_update, List_getListById. run. repeat split.
  - unfold count. now rewrite Sel.
  - rewrite map_map. apply map_ext. intros x.
    now destruct (list_where (KNum (l_id L)) u x).
  - intros x Ix Hx. apply in_map_iff. exists x. split; [|assumption].
    destruct (list_where (KNum (l_id L)) u x) eqn:W; [exfalso|reflexivity].
    assert (Hin : In x (filter (list_where (KNum (l_id L)) u) (lists d)))
      by (apply filter_In; now split).
    rewrite Sel in Hin. destruct Hin as [E|[]]. now subst.
  - f_equal. rewrite filter_map_swap.
    erewrite filter_ext.
    + rewrite Sel. cbn. rewrite WL. now rewrite O.
    + intros x. cbn. destruct (list_where (KNum (l_id L)) u x) eqn:W;
        [|exact W].
      unfold list_where in *. cbn in *. exact W.
Qed.

(* ------------------------------------------------------------------ *)
(** ** Lists: the handlers *)
(* ------------------------------------------------------------------ *)




Lemma lists_wf_insert (d : Database) (name : string) (u t : Z) :
  lists_wf d ->
  lists_wf (set_lists d (lists d ++ [mkList (next_list_id d) name u t None])
                      (next_list_id d + 1)).
Proof.
  intros H.
  exact (lists_wf_create (mkCtx (mkEnv None None) t "") d (Some name) u H).
Qed.

Lemma lists_wf_delete (d : Database) (id : string) (u : Z) :
  lists_wf d ->
  lists_wf (set_lists d
              (filter (fun r => negb (list_where (KStr id) u r)) (lists d))
              (next_list_id d)).
Proof.
  intros H.
  exact (lists_wf_remove (mkCtx (mkEnv None None) 0 "") d (KStr id) u H).
Qed.

Lemma lists_wf_rename (d : Database) (name id : string) (u t : Z) :
  lists_wf d ->
  lists_wf (set_lists d
              (map (fun r =>
                      if list_where (KStr id) u r
                      then mkList (l_id r) name (l_user_id r) (l_created_at r)
                                  (Some t)
                      else r) (lists d))
              (next_list_id d)).
Proof.
  intros H.
  exact (lists_wf_update (mkCtx (mkEnv None None) t "") d (Some name)
           (KStr id) u H).
Qed.

(** X5 — the router keeps the table well formed.  Whatever the request
    (any method, any path below the mount, with or without [req.user],
    with or without a name), the lists table after the router of
    [/api/lists] has ids that are pairwise distinct and below the
    counter, if it had before; the users and the todos are not
    touched. *)
Theorem listRoutes_keeps_wf (c : Ctx) (d : Database) (req : Request)
  (rest : list string) :
  lists_wf d ->
  lists_wf (final (listRoutes req rest c d)) /\
  users (final (listRoutes req rest c d)) = users d /\
  todos (final (listRoutes req rest c d)) = todos d.
Proof.
  intros WF. unfold listRoutes, answer.
  destruct (rq_method req), rest as [|id [|? ?]];
    try (split; [exact WF|split; reflexivity]);
    unfold getUserLists, getListById, createList, updateList, deleteList,
      user_id, params_id, List_findAllByUserId, List_getListById,
      List_create, List_update, List_remove, destructure;
    cbn [rq_user rq_params_id rq_parsed with_params_id];
    destruct (rq_parsed req) as [body|]; run;
    try (split; [exact WF|split; reflexivity]);
    destruct (rq_user req) as [dec|]; run;
    try (split; [exact WF|split; reflexivity]).
  all: try (destruct (filter _ (lists d)); run;
            (split; [exact WF|split; reflexivity])).
  all: try (destruct (b_name body); run;
            try (split; [exact WF|split; reflexivity])).
  all: try (destruct (negb _); run).
  all: (split; [|split; reflexivity]);
    first [ now apply lists_wf_insert | now apply lists_wf_delete
          | now apply lists_wf_rename ].
Qed.

(** X6 — what the list handlers read before their [try].  Each of the
    five handlers reads [req.user.id], and [createList] and
    [updateList] first destructure [req.body], outside the [try].  So
    once [req.user] is set, the router of [/api/lists] never throws on
    a request whose body was parsed, nor on a GET, HEAD or DELETE
    (OPTIONS, which the CORS layer answers, set aside): it passes the
    request on or answers with status 200, 404 or 500.  Without
    [req.user] each handler throws on reading [req.user.id], before any
    statement is sent, and no response is produced. *)
Theorem list_handlers_need_user (c : Ctx) (d : Database) (req : Request)
  (rest : list string) :
  (forall dec, rq_user req = Some dec -> rq_method req <> OPTIONS ->
     rq_parsed req <> None \/ In (rq_method req) [GET; HEAD; DELETE] ->
     result (listRoutes req rest c d) = Return None \/
     exists resp,
       result (listRoutes req rest c d) = Return (Some resp) /\
       (status resp = 200 \/ status resp = 404 \/ status resp = 500)) /\
  (rq_user req = None ->
   forall h name,
     In (h, name)
        [(getUserLists, "getUserLists"); (getListById, "getListById");
         (deleteList, "deleteList")] ->
     h req c d = (Throw (undefined_property "id"), d, [Controller name])) /\
  (rq_user req = None -> rq_parsed req <> None ->
   forall h name,
     In (h, name) [(createList, "createList"); (updateList, "updateList")] ->
     h req c d = (Throw (undefined_property "id"), d, [Controller name])).
Proof.
  split; [|split].
  - intros dec U NoOpt Ok. unfold listRoutes, answer.
    destruct (rq_method req), rest as [|id [|? ?]]; try contradiction;
      try (now left); right;
      unfold getUserLists, getListById, createList, updateList, deleteList,
        user_id, params_id, List_findAllByUserId, List_getListById,
        List_create, List_update, List_remove, destructure;
      cbn [rq_user rq_params_id rq_parsed with_params_id]; rewrite U;
      try (destruct (rq_parsed req) as [body|];
           [|exfalso; destruct Ok as [Ok|Ok];
             [now apply Ok|cbn in Ok; intuition discriminate]]);
      run.
    all: try (destruct (filter _ (lists d)); run).
    all: try (destruct (b_name body); run).
    all: try (destruct (negb _); run).
    all: eexists; split; [reflexivity|cbn; auto].
  - intros U h name I. cbn in I.
    repeat (destruct I as [I|I]; [injection I as <- <-|]); try contradiction;
      unfold getUserLists, getListById, deleteList, user_id;
      rewrite U; reflexivity.
  - intros U B h name I. cbn in I.
    repeat (destruct I as [I|I]; [injection I as <- <-|]); try contradiction;
      unfold createList, updateList, user_id, destructure;
      (destruct (rq_parsed req); [|contradiction]); rewrite U; reflexivity.
Qed.

(* ------------------------------------------------------------------ *)
(** ** Registration and login: what they answer and what they write *)
(* ------------------------------------------------------------------ *)

(** X7 — the answers of the two public handlers.  [register] always
    answers, with status 200, 409 or 500 (it destructures [req.body]
    inside its [try]); it never touches the lists or the todos, and the
    users table afterwards is the one before, possibly followed by one
    row with the id of the counter; on 409 the database is unchanged.
    [login] destructures [req.body] before its [try]: when the body was
    parsed it answers, with status 200, 401 or 500, and never changes
    the database; when [req.body] is [undefined] it throws and produces
    no response, where [register] answers 500. *)
Theorem auth_handlers_answer (c : Ctx) (d : Database) (req : Request) :
  (exists resp,
      result (register req c d) = Return resp /\
      (status resp = 200 \/ status resp = 409 \/ status resp = 500) /\
      lists (final (register req c d)) = lists d /\
      todos (final (register req c d)) = todos d /\
      (users (final (register req c d)) = users d \/
       exists row, users (final (register req c d)) = users d ++ [row] /\
                   u_id row = next_user_id d) /\
      (status resp = 409 -> final (register req c d) = d)) /\
  (rq_parsed req <> None ->
   exists resp,
      result (login req c d) = Return resp /\
      (status resp = 200 \/ status resp = 401 \/ status resp = 500) /\
      final (login req c d) = d) /\
  (rq_parsed req = None ->
   register req c d
   = (Return (failure 500 "Error registering user"
                (JError (undefined_body "name"))),
      d, [Controller "register"]) /\
   login req c d = (Throw (undefined_body "email"), d, [Controller "login"])).
Proof.
  split; [|split].
  - unfold register, User_findByEmail, User_create, bcrypt_hash, sign,
      users_email_unique, destructure.
    destruct (rq_parsed req) as [body|]; run.
    2: eexists; repeat split; cbn; auto; discriminate.
    destruct (b_email body) as [email|]; run.
    2: eexists; repeat split; cbn; auto; discriminate.
    destruct (filter (email_is email) (users d)); run.
    2: eexists; repeat split; cbn; auto.
    destruct (b_password body); run.
    2: eexists; repeat split; cbn; auto; discriminate.
    destruct (b_name body); run.
    2: eexists; repeat split; cbn; auto; discriminate.
    destruct (existsb (email_is email) (users d)); run.
    1: eexists; repeat split; cbn; auto; discriminate.
    destruct (jwt_sign _ _ _ _); run;
      (eexists; repeat split; cbn; auto; [right; eexists; split; reflexivity
                                          | discriminate]).
  - intros B. unfold login, User_findByEmail, bcrypt_compare, sign,
      destructure.
    destruct (rq_parsed req) as [body|]; [|contradiction]. run.
    destruct (b_email body) as [email|]; run.
    2: eexists; repeat split; cbn; auto.
    destruct (filter (email_is email) (users d)); run.
    1: eexists; repeat split; cbn; auto.
    destruct (b_password body); run.
    2: eexists; repeat split; cbn; auto.
    destruct (bcrypt_check _ _); run.
    2: eexists; repeat split; cbn; auto.
    destruct (jwt_sign _ _ _ _); run; eexists; repeat split; cbn; auto.
  - intros B. unfold register, login, destructure. rewrite B.
    split; reflexivity.
Qed.

Lemma users_wf_insert (d : Database) (name email digest : string) (t : Z) :
  users_wf d -> filter (email_is email) (users d) = [] ->
  users_wf (set_users d
              (users d ++ [mkUser (next_user_id d) name email digest t])
              (next_user_id d + 1)).
Proof.
  intros (ND & B & EU) F. unfold users_wf, emails_unique, set_users; cbn.
  rewrite Forall_forall in B. repeat split.
  - rewrite map_app. cbn. apply NoDup_app; auto.
    + constructor; [intros []|constructor].
    + intros a I [<-|[]]. apply in_map_iff in I.
      destruct I as [r [E I]]. specialize (B r I). lia.
  - apply Forall_app. split.
    + apply Forall_forall. intros r I. specialize (B r I). lia.
    + constructor; [cbn; lia|constructor].
  - rewrite map_app. cbn. apply NoDup_app; auto.
    + constructor; [intros []|constructor].
    + intros a I [<-|[]]. apply in_map_iff in I.
      destruct I as [r [E I]].
      assert (H : In r (filter (email_is email) (users d))).
      { apply filter_In. split; [assumption|].
        unfold email_is. rewrite E. apply String.eqb_refl. }
      rewrite F in H. contradiction.
Qed.

(** X8 — registration keeps the users table well formed.  Whatever the
    request and whatever bcrypt and jsonwebtoken do, after [register]
    the user ids are still pairwise distinct and below the counter and
    no email is stored twice: the row is only inserted when the SELECT
    has found nobody with that email. *)
Theorem register_keeps_users_wf (c : Ctx) (d : Database) (req : Request) :
  users_wf d -> users_wf (final (register req c d)).
Proof.
  intros WF.
  unfold register, User_findByEmail, User_create, bcrypt_hash, sign,
    users_email_unique, destructure.
  destruct (rq_parsed req) as [body|]; run; [|exact WF].
  destruct (b_email body) as [email|]; run; [|exact WF].
  destruct (filter (email_is email) (users d)) eqn:F; run; [|exact WF].
  destruct (b_password body); run; [|exact WF].
  destruct (b_name body); run; [|exact WF].
  destruct (existsb (email_is email) (users d)); run; [exact WF|].
  destruct (jwt_sign _ _ _ _); run; now apply users_wf_insert.
Qed.

(** X9 — register, then log in.  After a successful registration, a
    login with the same email and password, which bcrypt accepts
    against the digest it computed, succeeds whenever jsonwebtoken
    signs: it reads the database without changing it and answers 200
    with a token signed for the id that registration generated and the
    stored email; with a password that bcrypt rejects against that
    digest the answer is 401. *)
Theorem register_then_login (c1 c2 : Ctx) (d : Database) (req1 req2 : Request)
  (resp1 : Response) (email password password2 : string) :
  b_email (rq_body req1) = Some email ->
  b_password (rq_body req1) = Some password ->
  b_email (rq_body req2) = Some email ->
  b_password (rq_body req2) = Some password2 ->
  result (register req1 c1 d) = Return resp1 -> status resp1 = 200 ->
  let d1 := final (register req1 c1 d) in
  (bcrypt_check password2 (bcrypt_digest (salt c1) password) = true ->
   forall token,
     jwt_sign (mkClaims (next_user_id d) (Some email)) (signing_secret c2)
              (JWT_TTL (env c2)) (now c2) = inr token ->
     login req2 c2 d1
     = (Return (envelope (session token (expiryDate c2))), d1,
        [Controller "login"; Sql select_user; BcryptCompare; JwtSign])) /\
  (bcrypt_check password2 (bcrypt_digest (salt c1) password) = false ->
   login req2 c2 d1
   = (Return invalid_credentials, d1,
      [Controller "login"; Sql select_user; BcryptCompare])).
Proof.
  intros E1 P1 E2 P2 R S d1.
  destruct (register_success c1 d req1 resp1 R S)
    as (name & email' & password' & token1 & Hn & He & Hp & F & J & Run).
  rewrite E1 in He. injection He as <-.
  rewrite P1 in Hp. injection Hp as <-.
  assert (D1 : d1 = set_users d
                 (users d ++ [mkUser (next_user_id d) name email
                                (bcrypt_digest (salt c1) password) (now c1)])
                 (next_user_id d + 1)).
  { unfold d1. now rewrite Run. }
  assert (Found : filter (email_is email) (users d1)
                  = [mkUser (next_user_id d) name email
                       (bcrypt_digest (salt c1) password) (now c1)]).
  { rewrite D1. cbn. rewrite filter_app, F. cbn.
    now rewrite String.eqb_refl. }
  split.
  - intros C token Sg.
    unfold login, User_findByEmail, bcrypt_compare, sign, destructure.
    unfold rq_body in E2, P2.
    destruct (rq_parsed req2) as [body|]; [|discriminate]. run.
    rewrite E2, P2. run. rewrite Found. run. rewrite C. run.
    unfold signing_secret in Sg. rewrite Sg. reflexivity.
  - intros C. apply login_wrong_password
      with (email := email) (password := password2)
           (u := mkUser (next_user_id d) name email
                   (bcrypt_digest (salt c1) password) (now c1)); auto.
    now rewrite Found.
Qed.

(** X10 — a registration can fail after the insert.  When the email is
    new and name, email and password are given but [jwt.sign] throws
    (it is called after [User.create]), the answer is 500 "Error
    registering user" with the error thrown, yet the user row has been
    inserted: a second attempt with the same email is answered 409. *)
Theorem register_sign_failure_keeps_row (c c' : Ctx) (d : Database)
  (req req' : Request) (name email password : string) (e : error) :
  b_name (rq_body req) = Some name ->
  b_email (rq_body req) = Some email ->
  b_password (rq_body req) = Some password ->
  b_email (rq_body req') = Some email ->
  (forall r, In r (users d) -> u_email r <> email) ->
  jwt_sign (mkClaims (next_user_id d) (Some email)) (signing_secret c)
           (JWT_TTL (env c)) (now c) = inl e ->
  let d1 := set_users d
              (users d ++ [mkUser (next_user_id d) name email
                             (bcrypt_digest (salt c) password) (now c)])
              (next_user_id d + 1) in
  register req c d
  = (Return (failure 500 "Error registering user" (JError e)), d1,
     [Controller "register"; Sql select_user; BcryptHash; Sql insert_user;
      JwtSign]) /\
  register req' c' d1
  = (Return (failure 409 "Email is already registered" (JObj [])), d1,
     [Controller "register"; Sql select_user]).
Proof.
  intros N E Pw E' Fresh Sg d1.
  pose proof (no_user_filter d email Fresh) as F.
  split.
  - unfold register, User_findByEmail, User_create, bcrypt_hash, sign,
      users_email_unique, destructure.
    unfold rq_body in N, E, Pw.
    destruct (rq_parsed req) as [body|]; [|discriminate]. run.
    rewrite N, E, Pw. run. rewrite F. run.
    rewrite (filter_nil_existsb _ _ F). run.
    unfold signing_secret in Sg. rewrite Sg. reflexivity.
  - apply register_conflict
      with (email := email)
           (u := mkUser (next_user_id d) name email
                   (bcrypt_digest (salt c) password) (now c)); auto.
    unfold d1. cbn. apply in_or_app. right. now left.
Qed.

(* ------------------------------------------------------------------ *)
(** ** The gate and the mounts *)
(* ------------------------------------------------------------------ *)

(** X11 — nobody gets in unverified.  For every request, either the
    gate answers 401 itself, whatever the rest of the chain, leaving
    the database as it is and having logged at most its call of
    [jwt.verify]; or [jwt.verify] has returned a payload for the header
    stripped of ["Bearer "], and the rest of the chain runs on the
    request with [req.user] set to that payload.  So it is for every
    request to a path under [/api/lists] or [/api/todos]. *)
Theorem gate_lets_through_only_verified (c : Ctx) (d : Database)
  (req : Request) :
  (exists resp t,
      status resp = 401 /\ gate_trace t /\
      (forall next, authMiddleware req next c d = (Return resp, d, t)) /\
      (protected (rq_path req) = true ->
       app req c d = (Return resp, d, t))) \/
  (exists token dec,
      bearer req = Some token /\ token <> "" /\
      jwt_verify token (JWT_SECRET (env c)) (now c) = inr dec /\
      forall next,
        authMiddleware req next c d
        = after [JwtVerify] (next (with_user req (Some dec)) c d)).
Proof.
  destruct (bearer req) as [[|a t]|] eqn:B.
  - left. exists unauthorized, []. split; [reflexivity|].
    split; [now left|].
    assert (G : forall next,
               authMiddleware req next c d = (Return unauthorized, d, [])).
    { intros next. apply gate_falsy. now rewrite B. }
    split; [exact G|]. now apply app_gated.
  - destruct (jwt_verify (String a t) (JWT_SECRET (env c)) (now c))
      as [e|dec] eqn:V.
    + left.
      exists (failure 401 (concat_undef "Invalid token, TTL:" (JWT_TTL (env c)))
                      (JError e)), [JwtVerify].
      split; [reflexivity|]. split; [now right|].
      assert (G : forall next,
                 authMiddleware req next c d
                 = (Return (failure 401
                              (concat_undef "Invalid token, TTL:"
                                 (JWT_TTL (env c))) (JError e)),
                    d, [JwtVerify])).
      { intros next. apply gate_refused with (t := String a t); auto.
        discriminate. }
      split; [exact G|]. now apply app_gated.
    + right. exists (String a t), dec. repeat split; auto; [discriminate|].
      intros next. apply gate_verified with (t := String a t); auto.
      discriminate.
  - left. exists unauthorized, []. split; [reflexivity|].
    split; [now left|].
    assert (G : forall next,
               authMiddleware req next c d = (Return unauthorized, d, [])).
    { intros next. apply gate_falsy. now rewrite B. }
    split; [exact G|]. now apply app_gated.
Qed.

Lemma get_lists_run (c : Ctx) (d : Database) (req : Request)
  (token : string) (dec : Decoded) :
  rq_method req = GET -> rq_path req = ["api"; "lists"] ->
  bearer req = Some token -> token <> "" ->
  jwt_verify token (JWT_SECRET (env c)) (now c) = inr dec ->
  app req c d
  = (Return (success
               (JArr (map list_json
                        (filter (list_owned (d_id dec)) (lists d))))
               "Lists fetched successfully"),
     d, [JwtVerify; Controller "getUserLists"; Sql select_lists]).
Proof.
  intros Me Pa B N V. unfold app. rewrite Pa. cbn [mount String.eqb].
  cbn. rewrite (gate_verified c d req token dec _ B N V).
  unfold listRoutes. cbn [rq_method with_user]. rewrite Me.
  reflexivity.
Qed.

(** X12 — GET /api/lists shows the caller's lists.  With a header that
    [jwt.verify] accepts, the application answers 200 "Lists fetched
    successfully" with the stored lists whose [user_id] is the [id] of
    the token's payload, in table order, and nothing else; it verifies,
    runs the handler and one SELECT, and changes nothing. *)
Theorem get_lists_shows_own_rows (c : Ctx) (d : Database) (req : Request)
  (token : string) (dec : Decoded) :
  rq_method req = GET -> rq_path req = ["api"; "lists"] ->
  bearer req = Some token -> token <> "" ->
  jwt_verify token (JWT_SECRET (env c)) (now c) = inr dec ->
  app req c d
  = (Return (success
               (JArr (map list_json
                        (filter (list_owned (d_id dec)) (lists d))))
               "Lists fetched successfully"),
     d, [JwtVerify; Controller "getUserLists"; Sql select_lists]).
Proof.
  intros Me Pa B N V. now apply get_lists_run with (token := token).
Qed.

(** X13 — create a list, then list them.  A caller without any list
    who posts a name to /api/lists is answered 200 "List created
    successfully" with the generated id and the name; the GET that
    follows, with a token for the same user id, returns exactly that one
    list. *)
Theorem post_list_then_get (c1 c2 : Ctx) (d : Database) (post get : Request)
  (token1 token2 name : string) (dec1 dec2 : Decoded) :
  rq_method post = POST -> rq_path post = ["api"; "lists"] ->
  b_name (rq_body post) = Some name ->
  bearer post = Some token1 -> token1 <> "" ->
  jwt_verify token1 (JWT_SECRET (env c1)) (now c1) = inr dec1 ->
  rq_method get = GET -> rq_path get = ["api"; "lists"] ->
  bearer get = Some token2 -> token2 <> "" ->
  jwt_verify token2 (JWT_SECRET (env c2)) (now c2) = inr dec2 ->
  d_id dec2 = d_id dec1 ->
  (forall x, In x (lists d) -> l_user_id x <> d_id dec1) ->
  let row := mkList (next_list_id d) name (d_id dec1) (now c1) None in
  let d1 := set_lists d (lists d ++ [row]) (next_list_id d + 1) in
  app post c1 d
  = (Return (success (JObj [("id", JNum (next_list_id d));
                            ("name", JStr name)])
               "List created successfully"),
     d1,
     [JwtVerify; Controller "createList";
      Sql "INSERT INTO lists (name, user_id, created_at) VALUES (?, ?, NOW())"]) /\
  app get c2 d1
  = (Return (success (JArr [list_json row]) "Lists fetched successfully"),
     d1, [JwtVerify; Controller "getUserLists"; Sql select_lists]).
Proof.
  intros M1 P1 Nm B1 N1 V1 M2 P2 B2 N2 V2 Same Empty row d1.
  split.
  - unfold app. rewrite P1. cbn [mount String.eqb]. cbn.
    rewrite (gate_verified c1 d post token1 dec1 _ B1 N1 V1).
    unfold listRoutes. cbn [rq_method with_user]. rewrite M1.
    unfold answer, createList, List_create, user_id, destructure.
    cbn [rq_user rq_parsed with_user]. unfold rq_body in Nm.
    destruct (rq_parsed post) as [body|]; [|discriminate]. run.
    rewrite Nm. reflexivity.
  - rewrite (get_lists_run c2 d1 get token2 dec2 M2 P2 B2 N2 V2).
    rewrite Same. unfold d1. cbn [lists set_lists].
    rewrite filter_app, filter_none.
    + cbn. unfold list_owned. cbn. now rewrite Z.eqb_refl.
    + intros x I. unfold list_owned. apply Z.eqb_neq. now apply Empty.
Qed.

Lemma auth_mount_only (path rest : list string) :
  mount ["api"; "auth"] path = Some rest ->
  mount ["api"; "lists"] path = None /\ mount ["api"; "todos"] path = None.
Proof.
  destruct path as [|a [|b p]]; cbn [mount]; intros H; try discriminate H.
  - destruct (String.eqb "api" a); discriminate H.
  - destruct (String.eqb "api" a); [|discriminate H].
    destruct (String.eqb_spec "auth" b) as [<-|_]; [|discriminate H].
    split; reflexivity.
Qed.

Lemma no_verify_in (l : list event) :
  forallb (fun ev => match ev with JwtVerify => false | _ => true end) l
  = true ->
  ~ In JwtVerify l.
Proof.
  intros H I. rewrite forallb_forall in H. now apply H in I.
Qed.

Lemma login_never_verifies (c : Ctx) (d : Database) (req : Request) :
  ~ In JwtVerify (trace (login req c d)).
Proof.
  apply no_verify_in.
  unfold login, User_findByEmail, bcrypt_compare, sign, destructure.
  destruct (rq_parsed req) as [body|]; run; [|reflexivity].
  destruct (b_email body) as [email|]; run; [|reflexivity].
  destruct (filter (email_is email) (users d)); run; [reflexivity|].
  destruct (b_password body); run; [|reflexivity].
  destruct (bcrypt_check _ _); run; [|reflexivity].
  destruct (jwt_sign _ _ _ _); run; reflexivity.
Qed.

Lemma register_never_verifies (c : Ctx) (d : Database) (req : Request) :
  ~ In JwtVerify (trace (register req c d)).
Proof.
  apply no_verify_in.
  unfold register, User_findByEmail, User_create, bcrypt_hash, sign,
    users_email_unique, destructure.
  destruct (rq_parsed req) as [body|]; run; [|reflexivity].
  destruct (b_email body) as [email|]; run; [|reflexivity].
  destruct (filter (email_is email) (users d)); run; [|reflexivity].
  destruct (b_password body); run; [|reflexivity].
  destruct (b_name body); run; [|reflexivity].
  destruct (existsb (email_is email) (users d)); run; [reflexivity|].
  destruct (jwt_sign _ _ _ _); run; reflexivity.
Qed.

Lemma answered_trace (m : M Response) (c : Ctx) (d : Database) :
  trace ((r <- answer m ;; finish r) c d) = trace (m c d).
Proof.
  unfold answer, finish, notFound, bind, ret, trace.
  destruct (m c d) as [[[r|e] d'] t]; cbn; rewrite ?app_nil_r; reflexivity.
Qed.

(** X14 — the authentication routes are public.  For a path under
    [/api/auth] the gate is not in the chain: the application never
    calls [jwt.verify] and its outcome is the same whatever the
    [Authorization] header is; the router has POST routes only, so a
    GET, HEAD, PUT, PATCH or DELETE below the mount falls through to
    the 404 of the final handler with nothing run. *)
Theorem auth_routes_are_public (c : Ctx) (d : Database) (req : Request)
  (rest : list string) (h : option string) :
  mount ["api"; "auth"] (rq_path req) = Some rest ->
  app (with_authorization req h) c d = app req c d /\
  ~ In JwtVerify (trace (app req c d)) /\
  (In (rq_method req) [GET; HEAD; PUT; PATCH; DELETE] ->
   app req c d = (Return (mkResponse 404 JUndefined), d, [])).
Proof.
  intros M. destruct (auth_mount_only _ _ M) as [ML MT].
  unfold app. cbn [rq_path with_authorization]. rewrite ML, MT, M.
  unfold authRoutes. cbn [rq_method with_authorization].
  split; [|split].
  - destruct (rq_method req), rest as [|s [|? ?]]; reflexivity.
  - destruct (rq_method req), rest as [|s [|? ?]];
      try (cbn; intros []; fail).
    destruct (String.eqb s "login").
    + rewrite answered_trace. apply login_never_verifies.
    + destruct (String.eqb s "register"); [|cbn; intros []].
      rewrite answered_trace. apply register_never_verifies.
  - intros Me. cbn in Me.
    destruct (rq_method req), rest as [|s [|? ?]]; try reflexivity;
      exfalso; intuition discriminate.
Qed.

(* ------------------------------------------------------------------ *)
(** ** Missing fields *)
(* ------------------------------------------------------------------ *)

(** X15 — a missing field is a 500, a missing body is no answer.
    [db.execute] refuses a bind parameter that is [undefined], so a
    request whose parsed body lacks a field the statement binds is
    answered 500 with that [TypeError], before any statement is sent
    and with the database unchanged: the name for creating or renaming
    a list; the name or the list id for creating a todo; the name, the
    completion flag or the list id for updating a todo (which therefore
    cannot be updated in part).  When [req.body] itself is [undefined],
    these four handlers and [getTodos] throw on destructuring it,
    before their [try]: no response is produced. *)
Theorem missing_field_is_500 (c : Ctx) (d : Database) (req : Request) :
  (rq_parsed req <> None ->
   (forall dec, rq_user req = Some dec -> b_name (rq_body req) = None ->
      createList req c d
      = (Return (failure 500 "Error creating list" (JError bind_undefined)),
         d, [Controller "createList"]) /\
      updateList req c d
      = (Return (failure 500 "Error updating list" (JError bind_undefined)),
         d, [Controller "updateList"])) /\
   (b_name (rq_body req) = None \/ b_listId (rq_body req) = None ->
    createTodo req c d
    = (Return (failure 500 "Error creating todo" (JError bind_undefined)),
       d, [Controller "createTodo"])) /\
   (b_name (rq_body req) = None \/ b_completed (rq_body req) = None \/
    b_listId (rq_body req) = None ->
    updateTodo req c d
    = (Return (failure 500 "Error updating todo" (JError bind_undefined)),
       d, [Controller "updateTodo"]))) /\
  (rq_parsed req = None ->
   createList req c d
   = (Throw (undefined_body "name"), d, [Controller "createList"]) /\
   updateList req c d
   = (Throw (undefined_body "name"), d, [Controller "updateList"]) /\
   getTodos req c d
   = (Throw (undefined_body "listId"), d, [Controller "getTodos"]) /\
   createTodo req c d
   = (Throw (undefined_body "name"), d, [Controller "createTodo"]) /\
   updateTodo req c d
   = (Throw (undefined_body "name"), d, [Controller "updateTodo"])).
Proof.
  split.
  - intros B. unfold rq_body.
    destruct (rq_parsed req) as [body|] eqn:J; [clear B|contradiction].
    repeat split.
    + unfold createList, List_create, user_id, destructure.
      rewrite J, H. run. rewrite H0. reflexivity.
    + unfold updateList, List_update, user_id, destructure.
      rewrite J, H. run. rewrite H0. reflexivity.
    + intros [N|L]; unfold createTodo, Todo_create, destructure;
        rewrite J; run.
      * rewrite N. reflexivity.
      * rewrite L. destruct (b_name body); reflexivity.
    + intros [N|[C|L]]; unfold updateTodo, Todo_update, destructure;
        rewrite J; run.
      * rewrite N. reflexivity.
      * rewrite C. destruct (b_name body); reflexivity.
      * rewrite L. destruct (b_name body), (b_completed body); reflexivity.
  - intros B.
    unfold createList, updateList, getTodos, createTodo, updateTodo,
      destructure.
    rewrite B. repeat split.
Qed.

(* ------------------------------------------------------------------ *)
(** ** Todos: what the statements do to a row *)
(* ------------------------------------------------------------------ *)

Lemma todo_selected (d : Database) (T : TodoRow) :
  todos_wf d -> In T (todos d) ->
  filter (todo_where (KNum (t_id T))) (todos d) = [T].
Proof.
  intros [ND _] I.
  apply filter_unique with (f := t_id); auto.
  - unfold todo_where. cbn. apply Z.eqb_refl.
  - intros x _ W. unfold todo_where in W. cbn in W. now apply Z.eqb_eq.
Qed.

(** X16 — create a todo, then read.  [Todo.create] returns the value of
    the AUTO_INCREMENT counter, an id no stored todo has; the new row
    has the name and list id given, [completed] as given or [false]
    when it is left out, and no update time; [Todo.getTodoById] with
    the new id returns exactly that row, and
    [Todo.findAllByListId(listId)] returns what it returned before
    followed by it. *)
Theorem Todo_create_then_read (c c' : Ctx) (d : Database) (name : string)
  (listId : Z) (completed : option bool) :
  todos_wf d ->
  let r := Todo_create (Some name) (Some listId) completed c d in
  let row :=
    mkTodo (next_todo_id d) name listId
           (match completed with Some b => b | None => false end)
           (now c) None in
  result r = Return (next_todo_id d) /\
  (forall x, In x (todos d) -> t_id x <> next_todo_id d) /\
  result (Todo_getTodoById (KNum (next_todo_id d)) c' (final r))
  = Return [row] /\
  result (Todo_findAllByListId (Some listId) c' (final r))
  = Return (filter (todo_in_list (Some listId)) (todos d) ++ [row]).
Proof.
  intros [ND B] r row. rewrite Forall_forall in B.
  assert (Fresh : forall x, In x (todos d) -> t_id x <> next_todo_id d).
  { intros x I E. specialize (B x I). lia. }
  unfold r, Todo_create, Todo_getTodoById, Todo_findAllByListId. run.
  repeat split.
  - exact Fresh.
  - rewrite filter_app. cbn. rewrite filter_none.
    + unfold todo_where. cbn. now rewrite Z.eqb_refl.
    + intros x I. unfold todo_where. cbn. apply Z.eqb_neq. now apply Fresh.
  - rewrite filter_app. cbn. now rewrite Z.eqb_refl.
Qed.

(** X17 — update a todo, then read.  [Todo.update] on a stored todo
    [T], with all three fields given, reports one affected row and
    leaves the ids of the table as they were; afterwards
    [Todo.getTodoById(T.id)] returns the row with the new name, flag
    and list id, the time of the update, and the id and creation time
    of [T]; the todo is listed under the new list id and, when that
    differs from the old one, no longer under the old one. *)
Theorem Todo_update_then_read (c c' : Ctx) (d : Database) (T : TodoRow)
  (name : string) (completed : bool) (listId : Z) :
  todos_wf d -> In T (todos d) ->
  let r := Todo_update (Some name) (Some completed) (KNum (t_id T))
                       (Some listId) c d in
  let T' := mkTodo (t_id T) name listId completed (t_created_at T)
                   (Some (now c)) in
  result r = Return 1 /\
  map t_id (todos (final r)) = map t_id (todos d) /\
  result (Todo_getTodoById (KNum (t_id T)) c' (final r)) = Return [T'] /\
  (exists rows,
      result (Todo_findAllByListId (Some listId) c' (final r)) = Return rows /\
      In T' rows) /\
  (listId <> t_list_id T ->
   exists rows,
     result (Todo_findAllByListId (Some (t_list_id T)) c' (final r))
     = Return rows /\
     forall x, In x rows -> t_id x <> t_id T).
Proof.
  intros WF I r T'. pose proof (todo_selected d T WF I) as Sel.
  assert (WT : todo_where (KNum (t_id T)) T = true).
  { unfold todo_where. cbn. apply Z.eqb_refl. }
  assert (InT' : In T' (map (fun x =>
                                if todo_where (KNum (t_id T)) x
                                then mkTodo (t_id x) name listId completed
                                            (t_created_at x) (Some (now c))
                                else x) (todos d))).
  { apply in_map_iff. exists T. split; [|assumption]. now rewrite WT. }
  unfold r, Todo_update, Todo_getTodoById, Todo_findAllByListId. run.
  repeat split.
  - unfold count. now rewrite Sel.
  - rewrite map_map. apply map_ext. intros x.
    match goal with |- context [if ?b then _ else _] => now destruct b end.
  - f_equal. rewrite filter_map_swap. erewrite filter_ext.
    + rewrite Sel. cbn. now rewrite Z.eqb_refl.
    + intros x. unfold todo_where. cbn.
      destruct (t_id x =? t_id T) eqn:W; cbn; exact W.
  - eexists. split; [reflexivity|]. apply filter_In. split; [exact InT'|].
    cbn. apply Z.eqb_refl.
  - intros Moved. eexists. split; [reflexivity|].
    intros x Hx E. apply filter_In in Hx. destruct Hx as [Hx L].
    apply in_map_iff in Hx. destruct Hx as [y [Ey Iy]].
    revert Ey. destruct (t_id y =? t_id T) eqn:W; intros Ey; subst x.
    + cbn in L. apply Z.eqb_eq in L. contradiction.
    + apply Z.eqb_neq in W. contradiction.
Qed.

(** X18 — remove a todo, then read.  [Todo.remove(T.id)] on a stored
    todo [T] reports one affected row; [T] is gone, every other todo is
    still there, and [Todo.getTodoById(T.id)] is empty afterwards. *)
Theorem Todo_remove_then_read (c c' : Ctx) (d : Database) (T : TodoRow) :
  todos_wf d -> In T (todos d) ->
  let r := Todo_remove (KNum (t_id T)) c d in
  result r = Return 1 /\
  ~ In T (todos (final r)) /\
  (forall x, In x (todos d) -> x <> T -> In x (todos (final r))) /\
  result (Todo_getTodoById (KNum (t_id T)) c' (final r)) = Return [].
Proof.
  intros WF I r. pose proof (todo_selected d T WF I) as Sel.
  unfold r, Todo_remove, Todo_getTodoById. run. repeat split.
  - unfold count. now rewrite Sel.
  - intros H. apply filter_In in H. destruct H as [_ H].
    rewrite Z.eqb_refl in H. discriminate.
  - intros x Ix Hx. apply filter_In. split; [assumption|].
    destruct (t_id x =? t_id T) eqn:W; [exfalso|reflexivity].
    assert (Hin : In x (filter (todo_where (KNum (t_id T))) (todos d)))
      by (apply filter_In; split; [assumption|exact W]).
    rewrite Sel in Hin. destruct Hin as [E|[]]. now subst.
  - f_equal. apply filter_none. intros x Hx.
    apply filter_In in Hx. destruct Hx as [_ Hx].
    unfold todo_where. cbn. now destruct (t_id x =? t_id T).
Qed.

Lemma todos_wf_insert (d : Database) (row : TodoRow) :
  todos_wf d -> t_id row = next_todo_id d ->
  todos_wf (set_todos d (todos d ++ [row]) (next_todo_id d + 1)).
Proof.
  intros [ND B] E. unfold todos_wf, set_todos; cbn.
  rewrite Forall_forall in B. split.
  - rewrite map_app. cbn. apply NoDup_app; auto.
    + constructor; [intros []|constructor].
    + intros a I [<-|[]]. apply in_map_iff in I.
      destruct I as [r [Er I]]. specialize (B r I). lia.
  - apply Forall_app. split.
    + apply Forall_forall. intros r I. specialize (B r I). lia.
    + constructor; [lia|constructor].
Qed.

Lemma todos_wf_filter (d : Database) (p : TodoRow -> bool) :
  todos_wf d -> todos_wf (set_todos d (filter p (todos d)) (next_todo_id d)).
Proof.
  intros [ND B]. unfold todos_wf, set_todos; cbn. split.
  - clear B. induction (todos d) as [|r ts IH]; cbn; [constructor|].
    inversion ND as [|? ? Hx ND']; subst.
    destruct (p r); cbn; auto.
    constructor; auto. intros I. apply Hx.
    apply in_map_iff in I. destruct I as [x [E I]].
    apply filter_In in I. destruct I as [I _].
    rewrite <- E. now apply in_map.
  - rewrite Forall_forall in *. intros x I. apply filter_In in I.
    now apply B.
Qed.

Lemma todos_wf_map (d : Database) (g : TodoRow -> TodoRow) :
  (forall r, t_id (g r) = t_id r) ->
  todos_wf d -> todos_wf (set_todos d (map g (todos d)) (next_todo_id d)).
Proof.
  intros G [ND B]. unfold todos_wf, set_todos; cbn. split.
  - rewrite map_map. erewrite map_ext; [exact ND|]. exact G.
  - rewrite Forall_forall in *. intros x I. apply in_map_iff in I.
    destruct I as [r [<- I]]. rewrite G. now apply B.
Qed.

Ltac response_cases :=
  repeat match goal with
         | |- context [negb (?x =? 0)] => destruct (negb (x =? 0)); run
         | |- context [match filter ?f ?l with _ => _ end] =>
             destruct (filter f l); run
         end.

(** X19 — the todo handlers keep the table well formed.  Whatever the
    request, after each of the five handlers of the todo controller the
    todo ids are pairwise distinct and below the counter, if they were
    before, and the users and the lists are not touched. *)
Theorem todo_handlers_keep_wf (c : Ctx) (d : Database) (req : Request)
  (h : Request -> M Response) :
  In h [getTodos; getTodoById; createTodo; updateTodo; deleteTodo] ->
  todos_wf d ->
  todos_wf (final (h req c d)) /\
  users (final (h req c d)) = users d /\
  lists (final (h req c d)) = lists d.
Proof.
  intros I WF. cbn in I.
  repeat (destruct I as [<-|I]); try contradiction;
    unfold getTodos, getTodoById, createTodo, updateTodo, deleteTodo,
      Todo_findAllByListId, Todo_getTodoById, Todo_create, Todo_update,
      Todo_remove, params_id, destructure;
    destruct (rq_params_id req), (rq_parsed req) as [[[?|] [?|] [?|] [?|] [?|]]|];
    run; response_cases;
    (split; [|split; reflexivity]);
    first [ exact WF
          | apply todos_wf_insert; [exact WF|reflexivity]
          | apply todos_wf_filter; exact WF
          | apply todos_wf_map;
            [ intros r;
              match goal with
              | |- context [if ?b then _ else _] => now destruct b
              end
            | exact WF ] ].
Qed.

(** X20 — deleting twice.  DELETE on the id of a stored todo is
    answered 200 "Todo deleted successfully" and removes that row and
    no other; the same request again is answered 404 "Todo not found or
    deletion failed" and changes nothing. *)
Theorem deleteTodo_twice (c c' : Ctx) (d : Database) (req : Request)
  (id : string) (T : TodoRow) :
  todos_wf d -> In T (todos d) ->
  rq_params_id req = Some id -> mysql_number id = Some (t_id T) ->
  let d1 := final (deleteTodo req c d) in
  result (deleteTodo req c d)
  = Return (success JNull "Todo deleted successfully") /\
  (forall x, In x (todos d1) <-> In x (todos d) /\ x <> T) /\
  result (deleteTodo req c' d1)
  = Return (failure 404 "Todo not found or deletion failed" (JObj [])) /\
  todos (final (deleteTodo req c' d1)) = todos d1.
Proof.
  intros WF I Id Num d1.
  pose proof (todo_selected d T WF I) as Sel.
  assert (Same : forall x, todo_where (KStr id) x
                           = todo_where (KNum (t_id T)) x).
  { intros x. unfold todo_where, key_eq. now rewrite Num. }
  assert (F : filter (todo_where (KStr id)) (todos d) = [T]).
  { rewrite (filter_ext _ _ Same). exact Sel. }
  assert (D1 : todos d1
               = filter (fun r => negb (todo_where (KStr id) r)) (todos d)).
  { unfold d1, deleteTodo, Todo_remove, params_id. rewrite Id.
    unfold bind, ret, throw, try_catch, get, put, emit, bind_key,
      successResponse, errorResponse, final. cbn.
    destruct (negb _); reflexivity. }
  assert (Gone : filter (todo_where (KStr id)) (todos d1) = []).
  { rewrite D1. apply filter_none. intros x Hx.
    apply filter_In in Hx. destruct Hx as [_ Hx].
    now destruct (todo_where (KStr id) x). }
  repeat split.
  - unfold deleteTodo, Todo_remove, params_id. rewrite Id.
    unfold bind, ret, throw, try_catch, get, put, emit, bind_key,
      successResponse, errorResponse, result, count. cbn.
    rewrite F. reflexivity.
  - rewrite D1 in H. apply filter_In in H. tauto.
  - rewrite D1 in H. apply filter_In in H. destruct H as [_ H].
    intros ->. rewrite Same in H. unfold todo_where in H. cbn in H.
    rewrite Z.eqb_refl in H. discriminate.
  - intros [Ix Hx]. rewrite D1. apply filter_In. split; [assumption|].
    destruct (todo_where (KStr id) x) eqn:W; [exfalso|reflexivity].
    assert (Hin : In x (filter (todo_where (KStr id)) (todos d)))
      by (apply filter_In; now split).
    rewrite F in Hin. destruct Hin as [E|[]]. now subst.
  - unfold deleteTodo, Todo_remove, params_id. rewrite Id.
    unfold bind, ret, throw, try_catch, get, put, emit, bind_key,
      successResponse, errorResponse, result, count. cbn.
    rewrite Gone. reflexivity.
  - unfold deleteTodo, Todo_remove, params_id. rewrite Id.
    unfold bind, ret, throw, try_catch, get, put, emit, bind_key,
      successResponse, errorResponse, final, count. cbn.
    rewrite Gone. cbn. apply filter_all. intros x Hx.
    assert (W : todo_where (KStr id) x = false).
    { destruct (todo_where (KStr id) x) eqn:W; [|reflexivity].
      assert (Hin : In x (filter (todo_where (KStr id)) (todos d1)))
        by (apply filter_In; now split).
      rewrite Gone in Hin. contradiction. }
    change (negb (todo_where (KStr id) x) = true). now rewrite W.
Qed.

(* ------------------------------------------------------------------ *)
(** ** The gate: where the literal may stand *)
(* ------------------------------------------------------------------ *)

Lemma bearer_not_at_head (a b : string) :
  string_forall url_safe a = true -> a <> "" ->
  String.prefix "Bearer " (a +++ "Bearer " +++ b) = false.
Proof.
  intros H N. destruct a as [|x a]; [contradiction|]. clear N.
  cbn [String.append String.prefix].
  destruct (ascii_dec "B" x); [subst|reflexivity].
  do 6 (destruct a as [|? a];
        [ destruct b; reflexivity
        | cbn [String.append String.prefix];
          match goal with
          | |- context [ascii_dec ?p ?q] =>
              destruct (ascii_dec p q); [subst|reflexivity]
          end ]).
  cbn in H. discriminate.
Qed.

Lemma replace_inside (a b : string) :
  string_forall url_safe a = true ->
  replace "Bearer " "" (a +++ "Bearer " +++ b) = a +++ b.
Proof.
  induction a as [|x a IH]; intros H.
  - apply replace_prefixed.
  - assert (NH : String.prefix "Bearer " (String x a +++ "Bearer " +++ b)
                 = false)
      by (apply bearer_not_at_head; [exact H|discriminate]).
    cbn [String.append] in *. cbn [replace]. rewrite NH.
    f_equal. apply IH.
    cbn in H. apply andb_true_iff in H. now destruct H.
Qed.

(** X21 — the literal is removed wherever it stands, once.  The gate
    does not ask the header to start with ["Bearer "]: when the literal
    follows any run of base64url characters and dots, it is cut out and
    the two sides are verified as one token; a second ["Bearer "]
    further on is kept.  So a header made of a token that [jwt.verify]
    accepts with the literal inserted anywhere in it lets the request
    through. *)
Theorem gate_strips_literal_anywhere (c : Ctx) (d : Database) (req : Request)
  (a b : string) :
  string_forall url_safe a = true ->
  rq_authorization req = Some (a +++ "Bearer " +++ b) ->
  bearer req = Some (a +++ b) /\
  (forall dec next,
      a +++ b <> "" ->
      jwt_verify (a +++ b) (JWT_SECRET (env c)) (now c) = inr dec ->
      authMiddleware req next c d
      = after [JwtVerify] (next (with_user req (Some dec)) c d)).
Proof.
  intros H A.
  assert (B : bearer req = Some (a +++ b)).
  { unfold bearer. rewrite A. cbn [option_map]. now rewrite replace_inside. }
  split; [exact B|].
  intros dec next N V. now apply gate_verified with (t := a +++ b).
Qed.

End Further.

(* ================================================================== *)
(** * The further properties at work on the test doubles *)
(* ================================================================== *)

Lemma registered_lists_wf : lists_wf Stub.registered.
Proof. split; cbn; constructor. Qed.

Lemma two_tenants_todos_wf : todos_wf Stub.two_tenants.
Proof.
  split; cbn.
  - repeat constructor. intros [].
  - repeat constructor.
Qed.

Lemma empty_users_wf : users_wf Stub.empty.
Proof. repeat split; cbn; constructor. Qed.

Lemma List_create_then_read_witness :
  result (@List_getListById Stub.packages (KNum 3) 2 (Stub.at_noon Stub.dev)
            (final (List_create (Some "Chores") 2 (Stub.at_noon Stub.dev)
                      Stub.two_tenants)))
  = Return [mkList 3 "Chores" 2 1700000000000 None].
Proof.
  exact (proj1 (proj2 (proj2
    (@List_create_then_read Stub.packages (Stub.at_noon Stub.dev)
       (Stub.at_noon Stub.dev) Stub.two_tenants "Chores" 2
       two_tenants_wf)))).
Defined.

Lemma List_remove_then_read_witness :
  result (@List_remove Stub.packages (KNum 2) 2 (Stub.at_noon Stub.dev)
            Stub.two_tenants) = Return 1.
Proof.
  refine (proj1 (@List_remove_then_read Stub.packages (Stub.at_noon Stub.dev)
                   (Stub.at_noon Stub.dev) Stub.two_tenants 2 Stub.work
                   two_tenants_wf _ eq_refl)).
  cbn. right. now left.
Defined.

Lemma List_update_then_read_witness :
  result (@List_getListById Stub.packages (KNum 2) 2 (Stub.at_noon Stub.dev)
            (final (@List_update Stub.packages (Some "Office") (KNum 2) 2
                      (Stub.at_noon Stub.dev) Stub.two_tenants)))
  = Return [mkList 2 "Office" 2 1700000000000 (Some 1700000000000)].
Proof.
  refine (proj2 (proj2 (proj2
    (@List_update_then_read Stub.packages (Stub.at_noon Stub.dev)
       (Stub.at_noon Stub.dev) Stub.two_tenants 2 Stub.work "Office"
       two_tenants_wf _ eq_refl)))).
  cbn. right. now left.
Defined.


Lemma listRoutes_keeps_wf_witness :
  lists_wf (final (@listRoutes Stub.packages
                     (Stub.on_list DELETE "2" Stub.luigi_decoded None)
                     ["2"] (Stub.at_noon Stub.dev) Stub.two_tenants)).
Proof.
  exact (proj1 (@listRoutes_keeps_wf Stub.packages (Stub.at_noon Stub.dev)
                  Stub.two_tenants
                  (Stub.on_list DELETE "2" Stub.luigi_decoded None) ["2"]
                  two_tenants_wf)).
Defined.

Lemma register_keeps_users_wf_witness :
  users_wf (final (@register Stub.packages Stub.mario (Stub.at_noon Stub.dev)
                     Stub.empty)).
Proof.
  exact (@register_keeps_users_wf Stub.packages (Stub.at_noon Stub.dev)
           Stub.empty Stub.mario empty_users_wf).
Defined.

Lemma register_then_login_witness :
  @login Stub.packages Stub.mario_login (Stub.at_noon Stub.dev)
    (final (@register Stub.packages Stub.mario (Stub.at_noon Stub.dev)
              Stub.empty))
  = (Return (envelope (session Stub.mario_token
                         (@expiryDate Stub.packages (Stub.at_noon Stub.dev)))),
     final (@register Stub.packages Stub.mario (Stub.at_noon Stub.dev)
              Stub.empty),
     [Controller "login"; Sql select_user; BcryptCompare; JwtSign]).
Proof.
  refine (proj1
    (@register_then_login Stub.packages (Stub.at_noon Stub.dev)
       (Stub.at_noon Stub.dev) Stub.empty Stub.mario Stub.mario_login
       (envelope (session Stub.mario_token (Some 1703600000000)))
       "mario@test.it" "pw123" "pw123"
       eq_refl eq_refl eq_refl eq_refl _ eq_refl) _ Stub.mario_token _).
  - vm_compute. reflexivity.
  - vm_compute. reflexivity.
  - vm_compute. reflexivity.
Defined.

(** Mario registers while JWT_TTL is unset. *)
Lemma register_sign_failure_keeps_row_witness :
  result (@register Stub.packages Stub.mario (Stub.at_noon Stub.dev)
            (final (@register Stub.packages Stub.mario
                      (Stub.at_noon Stub.no_ttl) Stub.empty)))
  = Return (failure 409 "Email is already registered" (JObj [])).
Proof.
  destruct (@register_sign_failure_keeps_row Stub.packages
              (Stub.at_noon Stub.no_ttl) (Stub.at_noon Stub.dev) Stub.empty
              Stub.mario Stub.mario "Mario" "mario@test.it" "pw123"
              (mkError "Error" "expiresIn should be a number of seconds or string representing a timespan")
              eq_refl eq_refl eq_refl eq_refl
              (fun r (I : In r []) => match I with end) eq_refl)
    as [First Second].
  rewrite First. cbn [final fst snd]. now rewrite Second.
Defined.

Lemma get_lists_shows_own_rows_witness :
  @app Stub.packages (Stub.my_lists (Some ("Bearer " +++ Stub.mario_token)))
       (Stub.at_noon Stub.dev) Stub.two_tenants
  = (Return (success (JArr [list_json Stub.groceries])
               "Lists fetched successfully"),
     Stub.two_tenants,
     [JwtVerify; Controller "getUserLists"; Sql select_lists]).
Proof.
  refine (@get_lists_shows_own_rows Stub.packages (Stub.at_noon Stub.dev)
            Stub.two_tenants
            (Stub.my_lists (Some ("Bearer " +++ Stub.mario_token)))
            Stub.mario_token Stub.mario_decoded eq_refl eq_refl eq_refl _ _).
  - discriminate.
  - vm_compute. reflexivity.
Defined.

Lemma post_list_then_get_witness :
  @app Stub.packages (Stub.my_lists (Some ("Bearer " +++ Stub.mario_token)))
       (Stub.at_noon Stub.dev)
       (set_lists Stub.registered
          [mkList 1 "Groceries" 1 1700000000000 None] 2)
  = (Return (success (JArr [list_json (mkList 1 "Groceries" 1 1700000000000
                                         None)])
               "Lists fetched successfully"),
     set_lists Stub.registered [mkList 1 "Groceries" 1 1700000000000 None] 2,
     [JwtVerify; Controller "getUserLists"; Sql select_lists]).
Proof.
  refine (proj2
    (@post_list_then_get Stub.packages (Stub.at_noon Stub.dev)
       (Stub.at_noon Stub.dev) Stub.registered
       (Stub.new_list (Some ("Bearer " +++ Stub.mario_token)))
       (Stub.my_lists (Some ("Bearer " +++ Stub.mario_token)))
       Stub.mario_token Stub.mario_token "Groceries"
       Stub.mario_decoded Stub.mario_decoded
       eq_refl eq_refl eq_refl eq_refl _ _ eq_refl eq_refl eq_refl _ _
       eq_refl _)).
  - discriminate.
  - vm_compute. reflexivity.
  - discriminate.
  - vm_compute. reflexivity.
  - intros x [].
Defined.

Lemma auth_routes_are_public_witness :
  @app Stub.packages (with_authorization Stub.mario (Some "garbage"))
       (Stub.at_noon Stub.dev) Stub.empty
  = @app Stub.packages Stub.mario (Stub.at_noon Stub.dev) Stub.empty.
Proof.
  exact (proj1 (@auth_routes_are_public Stub.packages (Stub.at_noon Stub.dev)
                  Stub.empty Stub.mario ["register"] (Some "garbage")
                  eq_refl)).
Defined.

Lemma Todo_create_then_read_witness :
  result (@Todo_getTodoById Stub.packages (KNum 2) (Stub.at_noon Stub.dev)
            (final (Todo_create (Some "Bread") (Some 1) None
                      (Stub.at_noon Stub.dev) Stub.two_tenants)))
  = Return [mkTodo 2 "Bread" 1 false 1700000000000 None].
Proof.
  exact (proj1 (proj2 (proj2
    (@Todo_create_then_read Stub.packages (Stub.at_noon Stub.dev)
       (Stub.at_noon Stub.dev) Stub.two_tenants "Bread" 1 None
       two_tenants_todos_wf)))).
Defined.

Lemma Todo_update_then_read_witness :
  result (@Todo_getTodoById Stub.packages (KNum 1) (Stub.at_noon Stub.dev)
            (final (@Todo_update Stub.packages (Some "Oat milk") (Some true)
                      (KNum 1) (Some 2) (Stub.at_noon Stub.dev)
                      Stub.two_tenants)))
  = Return [mkTodo 1 "Oat milk" 2 true 1700000000000 (Some 1700000000000)].
Proof.
  refine (proj1 (proj2 (proj2
    (@Todo_update_then_read Stub.packages (Stub.at_noon Stub.dev)
       (Stub.at_noon Stub.dev) Stub.two_tenants Stub.milk "Oat milk" true 2
       two_tenants_todos_wf _)))).
  cbn. now left.
Defined.

Lemma Todo_remove_then_read_witness :
  result (@Todo_remove Stub.packages (KNum 1) (Stub.at_noon Stub.dev)
            Stub.two_tenants) = Return 1.
Proof.
  refine (proj1 (@Todo_remove_then_read Stub.packages (Stub.at_noon Stub.dev)
                   (Stub.at_noon Stub.dev) Stub.two_tenants Stub.milk
                   two_tenants_todos_wf _)).
  cbn. now left.
Defined.

Lemma todo_handlers_keep_wf_witness :
  todos_wf (final (@deleteTodo Stub.packages (Stub.delete_todo "1")
                     (Stub.at_noon Stub.dev) Stub.two_tenants)).
Proof.
  refine (proj1 (@todo_handlers_keep_wf Stub.packages (Stub.at_noon Stub.dev)
                   Stub.two_tenants (Stub.delete_todo "1")
                   (@deleteTodo Stub.packages) _ two_tenants_todos_wf)).
  cbn. tauto.
Defined.

Lemma deleteTodo_twice_witness :
  result (@deleteTodo Stub.packages (Stub.delete_todo "1")
            (Stub.at_noon Stub.dev)
            (final (@deleteTodo Stub.packages (Stub.delete_todo "1")
                      (Stub.at_noon Stub.dev) Stub.two_tenants)))
  = Return (failure 404 "Todo not found or deletion failed" (JObj [])).
Proof.
  refine (proj1 (proj2 (proj2
    (@deleteTodo_twice Stub.packages (Stub.at_noon Stub.dev)
       (Stub.at_noon Stub.dev) Stub.two_tenants (Stub.delete_todo "1") "1"
       Stub.milk two_tenants_todos_wf _ eq_refl eq_refl)))).
  cbn. now left.
Defined.

(** Mario's token with the literal in its middle. *)
Lemma gate_strips_literal_anywhere_witness :
  @bearer (Stub.my_lists (Some "1.1700000000.Bearer 1700003600.205026"))
  = Some Stub.mario_token.
Proof.
  exact (proj1 (@gate_strips_literal_anywhere Stub.packages
                  (Stub.at_noon Stub.dev) Stub.registered
                  (Stub.my_lists (Some "1.1700000000.Bearer 1700003600.205026"))
                  "1.1700000000." "1700003600.205026" eq_refl eq_refl)).
Defined.

(** A request for the lists that has not gone through the gate. *)
Lemma list_handlers_need_user_witness :
  getUserLists (Stub.my_lists None) (Stub.at_noon Stub.dev)
    Stub.two_tenants
  = (Throw (undefined_property "id"), Stub.two_tenants,
     [Controller "getUserLists"]).
Proof.
  refine (proj1 (proj2
    (@list_handlers_need_user Stub.packages (Stub.at_noon Stub.dev)
       Stub.two_tenants (Stub.my_lists None) []))
    eq_refl getUserLists "getUserLists" _).
  cbn. now left.
Defined.

(** A login and a registration without a body. *)
Lemma auth_handlers_answer_witness :
  @register Stub.packages (Stub.bodyless POST ["api"; "auth"; "register"])
    (Stub.at_noon Stub.dev) Stub.registered
  = (Return (failure 500 "Error registering user"
               (JError (undefined_body "name"))),
     Stub.registered, [Controller "register"]) /\
  @login Stub.packages (Stub.bodyless POST ["api"; "auth"; "login"])
    (Stub.at_noon Stub.dev) Stub.registered
  = (Throw (undefined_body "email"), Stub.registered, [Controller "login"]).
Proof.
  split.
  - exact (proj1 (proj2 (proj2
      (@auth_handlers_answer Stub.packages (Stub.at_noon Stub.dev)
         Stub.registered (Stub.bodyless POST ["api"; "auth"; "register"])))
      eq_refl)).
  - exact (proj2 (proj2 (proj2
      (@auth_handlers_answer Stub.packages (Stub.at_noon Stub.dev)
         Stub.registered (Stub.bodyless POST ["api"; "auth"; "login"])))
      eq_refl)).
Defined.

(** A todo without a name, and a todo without a body. *)
Lemma missing_field_is_500_witness :
  createTodo
    (Stub.request POST ["api"; "todos"] None Stub.no_body)
    (Stub.at_noon Stub.dev) Stub.two_tenants
  = (Return (failure 500 "Error creating todo" (JError bind_undefined)),
     Stub.two_tenants, [Controller "createTodo"]) /\
  createTodo (Stub.bodyless POST ["api"; "todos"])
    (Stub.at_noon Stub.dev) Stub.two_tenants
  = (Throw (undefined_body "name"), Stub.two_tenants,
     [Controller "createTodo"]).
Proof.
  split.
  - refine (proj1 (proj2 (proj1
      (@missing_field_is_500 Stub.packages (Stub.at_noon Stub.dev)
         Stub.two_tenants
         (Stub.request POST ["api"; "todos"] None Stub.no_body)) _))
      (or_introl eq_refl)).
    discriminate.
  - exact (proj1 (proj2 (proj2 (proj2 (proj2
      (@missing_field_is_500 Stub.packages (Stub.at_noon Stub.dev)
         Stub.two_tenants (Stub.bodyless POST ["api"; "todos"]))
      eq_refl))))).
Defined.
